(** * A to-do list web application: the request handlers of [main.py]

    The handlers of the Flask application are embedded as computations in a
    small request monad over the relational store (tables [User], [ListTODO],
    [Task]), the login session and the flashed messages.  Calls into
    libraries whose code is not part of the repository (password hashing,
    the e-mail validator, date parsing and printing, SQLite's comparison of
    an integer column with a text value) are fields of a [Library] record.
    A [string] is the UTF-8 encoding of a string of the program. *)

From Stdlib Require Import List String Ascii Bool Arith PeanoNat NArith Lia.
Import ListNotations.
Local Open Scope string_scope.
Local Open Scope nat_scope.

(** ** Data model *)

(** A calendar date, as stored in a [db.Date] column. *)
Record Date := mkDate { year : nat; month : nat; day : nat }.

(** [class User]: every column but the primary key is nullable. *)
Module User.
Record t := mk {
  id : nat;
  email : option string;
  password : option string;
  name : option string }.
End User.

(** [class ListTODO]. *)
Module ListTODO.
Record t := mk {
  id : nat;
  name : option string;
  author_id : option nat }.

Definition set_name (n : option string) (l : t) : t :=
  mk (id l) n (author_id l).
End ListTODO.

(** [class Task]: [done] and [description] are [nullable=False], the foreign
    key [tasks_list] and [deadline] are nullable. *)
Module Task.
Record t := mk {
  id : nat;
  done : bool;
  description : string;
  tasks_list : option nat;
  deadline : option Date }.

Definition set_done (b : bool) (x : t) : t :=
  mk (id x) b (description x) (tasks_list x) (deadline x).

Definition set_description (d : string) (x : t) : t :=
  mk (id x) (done x) d (tasks_list x) (deadline x).

Definition set_deadline (d : option Date) (x : t) : t :=
  mk (id x) (done x) (description x) (tasks_list x) d.

Definition set_tasks_list (p : option nat) (x : t) : t :=
  mk (id x) (done x) (description x) p (deadline x).
End Task.

(** The three tables, each a list of rows in rowid order (the order of a
    table scan, which is the order every [select] of the program returns
    its rows in). *)
Record Store := mkStore {
  users : list User.t;
  lists : list ListTODO.t;
  tasks : list Task.t }.

(** ** Library calls *)

Record Library := mkLibrary {
  (** [generate_password_hash(password, method='pbkdf2:sha256', salt_length=8)]
      with the salt it draws. *)
  generate_password_hash : string -> string -> string;
  (** [check_password_hash(pwhash, password)]. *)
  check_password_hash : string -> string -> bool;
  (** the [Email()] validator accepts the value. *)
  Email : string -> bool;
  (** [dt.strptime(date, "%Y-%m-%d")]; [None] is its [ValueError]. *)
  strptime : string -> option Date;
  (** [d.strftime("%Y/%m/%d")]. *)
  strftime : Date -> string;
  (** the integer an integer column equals when it is compared with this
      text value, if there is one. *)
  integer_of_text : string -> option nat }.

(** ** Requests, responses, exceptions *)

Inductive Method := GET | POST.

(** [request.form] is a multi-dict: the submitted pairs in order. *)
Definition MultiDict := list (string * string).

Fixpoint form_get (k : string) (f : MultiDict) : option string :=
  match f with
  | [] => None
  | (k', v) :: f' => if String.eqb k' k then Some v else form_get k f'
  end.

Fixpoint form_getlist (k : string) (f : MultiDict) : list string :=
  match f with
  | [] => []
  | (k', v) :: f' =>
      if String.eqb k' k then v :: form_getlist k f' else form_getlist k f'
  end.

(** A request with what the handler reads from its surroundings while it
    serves it: whether the CSRF token checks, the clock and the salt. *)
Record Request := mkRequest {
  method : Method;
  form : MultiDict;
  csrf_ok : bool;
  today : Date;
  salt : string }.

Inductive Exception :=
| AttributeError
| IndexError
| ValueError
| IntegrityError
| UnmappedInstanceError
| OverflowError
| NotFound
| Unauthorized
| MethodNotAllowed.

Inductive Endpoint := home_ep | login_ep | all_lists_ep.

(** [render_template(name, **context)]: the template with the values the
    handler passes to it.  Of a form the view gets [form.errors], here the
    names of the fields with an error. *)
Inductive View :=
| index_html (lists : option (list ListTODO.t))
| register_html (form_errors : list string)
| login_html (form_errors : list string)
| make_list_html
| create_tasks_html (data : option ListTODO.t) (completed : option bool)
| all_lists_html (lists : list ListTODO.t).

Inductive Response :=
| Render (v : View)
| Redirect (e : Endpoint)
| Failed (e : Exception).

Definition status_code (r : Response) : nat :=
  match r with
  | Render _ => 200
  | Redirect _ => 302
  | Failed NotFound => 404
  | Failed Unauthorized => 401
  | Failed MethodNotAllowed => 405
  | Failed _ => 500
  end.

(** ** The request monad *)

(** What a handler works on: the committed store, the store as the open
    transaction sees it, the user id of the login session and the messages
    flashed so far. *)
Record Ctx := mkCtx {
  disk : Store;
  pending : Store;
  session : option nat;
  flashes : list string }.

Definition M (A : Type) : Type := Ctx -> (Exception + A) * Ctx.

Definition ret {A} (a : A) : M A := fun c => (inr a, c).

Definition bind {A B} (m : M A) (k : A -> M B) : M B :=
  fun c =>
    match m c with
    | (inl e, c') => (inl e, c')
    | (inr a, c') => k a c'
    end.

Definition raise {A} (e : Exception) : M A := fun c => (inl e, c).

Declare Scope req_scope.
Delimit Scope req_scope with req.
Notation "x <- m ;; k" := (bind m (fun x => k))
  (at level 61, m at next level, right associativity) : req_scope.
Notation "m ;; k" := (bind m (fun _ => k))
  (at level 61, right associativity) : req_scope.
Local Open Scope req_scope.

(** [for x in xs: body]. *)
Fixpoint for_each {A} (xs : list A) (body : A -> M unit) : M unit :=
  match xs with
  | [] => ret tt
  | x :: xs' => body x ;; for_each xs' body
  end.

Definition query {A} (f : Store -> A) : M A := fun c => (inr (f (pending c)), c).

Definition modify (f : Store -> Store) : M unit :=
  fun c => (inr tt, mkCtx (disk c) (f (pending c)) (session c) (flashes c)).

(** [db.session.commit()]. *)
Definition commit : M unit :=
  fun c => (inr tt, mkCtx (pending c) (pending c) (session c) (flashes c)).

(** [flash(message)]. *)
Definition flash (msg : string) : M unit :=
  fun c => (inr tt, mkCtx (disk c) (pending c) (session c) (flashes c ++ [msg])).

(** [login_user(user)]. *)
Definition login_user (u : User.t) : M unit :=
  fun c => (inr tt, mkCtx (disk c) (pending c) (Some (User.id u)) (flashes c)).

(** ** Queries and updates of the store *)

Definition option_eqb {A} (eqb : A -> A -> bool) (x y : option A) : bool :=
  match x, y with
  | Some a, Some b => eqb a b
  | None, None => true
  | _, _ => false
  end.

(** [select(User).where(User.email == e)], first row. *)
Definition user_by_email (e : option string) (s : Store) : option User.t :=
  find (fun u => option_eqb String.eqb (User.email u) e) (users s).

Definition user_by_id (i : nat) (s : Store) : option User.t :=
  find (fun u => User.id u =? i) (users s).

(** [select(ListTODO).where(ListTODO.id == list_id)], first row. *)
Definition list_by_id (i : nat) (s : Store) : option ListTODO.t :=
  find (fun l => ListTODO.id l =? i) (lists s).

(** [select(Task).where(Task.id == i)], first row. *)
Definition task_by_id (i : nat) (s : Store) : option Task.t :=
  find (fun t => Task.id t =? i) (tasks s).

(** [select(ListTODO).where(ListTODO.author_id == uid)], all rows. *)
Definition lists_of_author (uid : nat) (s : Store) : list ListTODO.t :=
  filter (fun l => option_eqb Nat.eqb (ListTODO.author_id l) (Some uid)) (lists s).

(** The collection [l.tasks] of the list with id [lid]. *)
Definition tasks_of (lid : nat) (s : Store) : list Task.t :=
  filter (fun t => option_eqb Nat.eqb (Task.tasks_list t) (Some lid)) (tasks s).

(** The id a new row gets: one more than the largest one of the table. *)
Definition next_id (ids : list nat) : nat := S (fold_right Nat.max 0 ids).

Definition update_where {A} (p : A -> bool) (f : A -> A) (rows : list A) : list A :=
  map (fun r => if p r then f r else r) rows.

(** Assignment to a column of the list row with id [i]. *)
Definition update_list_row (i : nat) (f : ListTODO.t -> ListTODO.t) (s : Store) : Store :=
  mkStore (users s) (update_where (fun l => ListTODO.id l =? i) f (lists s)) (tasks s).

(** Assignment to a column of the task row with id [i]. *)
Definition update_task_row (i : nat) (f : Task.t -> Task.t) (s : Store) : Store :=
  mkStore (users s) (lists s) (update_where (fun t => Task.id t =? i) f (tasks s)).

Definition insert_user (u : User.t) (s : Store) : Store :=
  mkStore (users s ++ [u]) (lists s) (tasks s).

Definition insert_list (l : ListTODO.t) (s : Store) : Store :=
  mkStore (users s) (lists s ++ [l]) (tasks s).

Definition insert_task (t : Task.t) (s : Store) : Store :=
  mkStore (users s) (lists s) (tasks s ++ [t]).

(** Deleting a list row: the relationship [tasks] has no delete cascade, so
    the rows of its collection stay and their foreign key is set to NULL. *)
Definition delete_list_row (i : nat) (s : Store) : Store :=
  mkStore (users s)
    (filter (fun l => negb (ListTODO.id l =? i)) (lists s))
    (update_where (fun t => option_eqb Nat.eqb (Task.tasks_list t) (Some i))
       (Task.set_tasks_list None) (tasks s)).

(** ** Actions on ORM objects *)

(** [obj.attr = v] on the result of a [scalar()] query: [None] has no
    attributes. *)
Definition setattr_task (o : option Task.t) (f : Task.t -> Task.t) : M unit :=
  match o with
  | None => raise AttributeError
  | Some t => modify (update_task_row (Task.id t) f)
  end.

Definition setattr_list (o : option ListTODO.t) (f : ListTODO.t -> ListTODO.t) : M unit :=
  match o with
  | None => raise AttributeError
  | Some l => modify (update_list_row (ListTODO.id l) f)
  end.

(** [xs[i]]. *)
Definition getitem {A} (xs : list A) (i : nat) : M A :=
  match nth_error xs i with
  | Some x => ret x
  | None => raise IndexError
  end.

(** [xs.index(x)]: the position of the first element equal to [x]. *)
Fixpoint index (x : string) (xs : list string) : option nat :=
  match xs with
  | [] => None
  | y :: ys => if String.eqb y x then Some 0 else option_map S (index x ys)
  end.

(** [db.session.add(User(...))]: the row gets its id when it is flushed;
    [email] is [unique=True]. *)
Definition add_user (email password name : option string) : M User.t :=
  taken <- query (fun s =>
    match email with
    | Some _ => match user_by_email email s with Some _ => true | None => false end
    | None => false
    end) ;;
  if taken then raise IntegrityError
  else
    u <- query (fun s => User.mk (next_id (map User.id (users s))) email password name) ;;
    modify (insert_user u) ;;
    ret u.

(** [db.session.add(ListTODO(name=..., author=...))]. *)
Definition add_list (name : option string) (author : option User.t) : M ListTODO.t :=
  l <- query (fun s =>
    ListTODO.mk (next_id (map ListTODO.id (lists s))) name (option_map User.id author)) ;;
  modify (insert_list l) ;;
  ret l.

(** [db.session.add(Task(...))]: [description] is [nullable=False], the
    flush of a task without one fails. *)
Definition add_task_row (done : bool) (deadline : option Date)
    (description : option string) (parent_list : option ListTODO.t) : M Task.t :=
  match description with
  | None => raise IntegrityError
  | Some d =>
      t <- query (fun s =>
        Task.mk (next_id (map Task.id (tasks s))) done d
          (option_map ListTODO.id parent_list) deadline) ;;
      modify (insert_task t) ;;
      ret t
  end.

(** [db.session.delete(obj)]. *)
Definition session_delete (o : option ListTODO.t) : M unit :=
  match o with
  | None => raise UnmappedInstanceError
  | Some l => modify (delete_list_row (ListTODO.id l))
  end.

(** [current_user]: the anonymous user without a login session, otherwise
    what [load_user] returns, which is [db.get_or_404(User, user_id)]. *)
Definition load_user (user_id : nat) : M User.t :=
  u <- query (user_by_id user_id) ;;
  match u with
  | Some u => ret u
  | None => raise NotFound
  end.

Definition current_user : M (option User.t) :=
  fun c =>
    match session c with
    | None => ret None c
    | Some uid => (u <- load_user uid ;; ret (Some u)) c
    end.

(** [logout_user()]: it gets the current user, then drops the session. *)
Definition logout_user : M unit :=
  current_user ;;
  fun c => (inr tt, mkCtx (disk c) (pending c) None (flashes c)).

(** [render_template(name, **context)]: the login manager's context
    processor hands [current_user] to every template, which loads the user
    of the session. *)
Definition render_template (v : View) : M Response :=
  current_user ;;
  ret (Render v).

(** The largest integer an SQLite statement takes as a parameter. *)
Definition sqlite_max : N := 9223372036854775807%N.

Definition fits (i : nat) : bool := (N.of_nat i <=? sqlite_max)%N.

(** [db.session.execute(db.select(ListTODO).where(ListTODO.id == list_id)).scalar()]
    for the [list_id] of a route, which is any natural number.  An integer
    SQLite does not hold raises [OverflowError] when it is bound to the
    statement.  The ids of the rows of a database are integers SQLite holds,
    so a row that is found has an id that was bound, and the bound is looked
    at for the ids no row has. *)
Definition select_list (list_id : nat) : M (option ListTODO.t) :=
  found <- query (list_by_id list_id) ;;
  match found with
  | Some l => ret (Some l)
  | None => if fits list_id then ret None else raise OverflowError
  end.

(** [@login_required]. *)
Definition login_required (view : User.t -> M Response) : M Response :=
  cu <- current_user ;;
  match cu with
  | None => raise Unauthorized
  | Some u => view u
  end.

(** ** Forms *)

(** A [str] is held as the bytes of its UTF-8 encoding; its characters are
    the code points these bytes encode, [bytes.decode("utf-8", "replace")]:
    a byte that starts no character, or the bytes of a character that is cut
    short, stand for the replacement character U+FFFD. *)
Definition continuation (b : N) : bool := ((128 <=? b) && (b <? 192))%N.

(** The second byte of a character of three bytes: no overlong form, no
    surrogate. *)
Definition second_of_three (b b1 : N) : bool :=
  (continuation b1 && negb ((b =? 224) && (b1 <? 160))
   && negb ((b =? 237) && (160 <=? b1)))%N.

(** The second byte of a character of four bytes: no overlong form, nothing
    above U+10FFFF. *)
Definition second_of_four (b b1 : N) : bool :=
  (continuation b1 && negb ((b =? 240) && (b1 <? 144))
   && negb ((b =? 244) && (144 <=? b1)))%N.

Fixpoint decode (bytes : list N) : list N :=
  (match bytes with
   | [] => []
   | b :: rest =>
       if b <? 128 then b :: decode rest
       else if b <? 194 then 65533 :: decode rest
       else if b <? 224 then
         match rest with
         | [] => [65533]
         | b1 :: rest1 =>
             if continuation b1
             then ((b - 192) * 64 + (b1 - 128)) :: decode rest1
             else 65533 :: decode rest
         end
       else if b <? 240 then
         match rest with
         | [] => [65533]
         | b1 :: rest1 =>
             if second_of_three b b1 then
               match rest1 with
               | [] => [65533]
               | b2 :: rest2 =>
                   if continuation b2
                   then ((b - 224) * 4096 + (b1 - 128) * 64 + (b2 - 128))
                        :: decode rest2
                   else 65533 :: decode rest1
               end
             else 65533 :: decode rest
         end
       else if b <? 245 then
         match rest with
         | [] => [65533]
         | b1 :: rest1 =>
             if second_of_four b b1 then
               match rest1 with
               | [] => [65533]
               | b2 :: rest2 =>
                   if continuation b2 then
                     match rest2 with
                     | [] => [65533]
                     | b3 :: rest3 =>
                         if continuation b3
                         then ((b - 240) * 262144 + (b1 - 128) * 4096
                               + (b2 - 128) * 64 + (b3 - 128)) :: decode rest3
                         else 65533 :: decode rest2
                     end
                   else 65533 :: decode rest1
               end
             else 65533 :: decode rest
         end
       else 65533 :: decode rest
   end)%N.

Definition code_points (s : string) : list N :=
  decode (map N_of_ascii (list_ascii_of_string s)).

(** [len(s)]. *)
Definition characters (s : string) : nat := List.length (code_points s).

(** The characters [str.strip()] removes: those [str.isspace()] holds of. *)
Definition is_space (c : N) : bool :=
  ((9 <=? c) && (c <=? 13) || (28 <=? c) && (c <=? 32)
   || (c =? 133) || (c =? 160) || (c =? 5760)
   || (8192 <=? c) && (c <=? 8202)
   || (c =? 8232) || (c =? 8233) || (c =? 8239) || (c =? 8287) || (c =? 12288))%N.

(** The validator [DataRequired()]: the data is there and [data.strip()]
    is not empty. *)
Definition DataRequired (data : option string) : bool :=
  match data with
  | None => false
  | Some s => existsb (fun c => negb (is_space c)) (code_points s)
  end.

(** The validator [Length(min=n)]. *)
Definition Length_min (n : nat) (data : option string) : bool :=
  match data with
  | None => false
  | Some s => n <=? characters s
  end.

Definition is_submitted (req : Request) : bool :=
  match method req with POST => true | GET => false end.

(** [form.validate()] runs the validators of every field and leaves the
    failures in [form.errors]. *)
Definition failed_fields (checks : list (string * bool)) : list string :=
  map fst (filter (fun check => negb (snd check)) checks).

(** [form.validate_on_submit()], with the errors the form holds after the
    call: a form that was not submitted is not validated. *)
Definition validate_on_submit (req : Request) (checks : list (string * bool))
    : bool * list string :=
  if is_submitted req then
    (match failed_fields checks with [] => true | _ :: _ => false end,
     failed_fields checks)
  else (false, []).

Section Handlers.

Variable L : Library.

Definition Email_validator (data : option string) : bool :=
  match data with
  | None => false
  | Some s => Email L s
  end.

(** [class RegisterForm(FlaskForm)]: its fields with their validators, and
    the CSRF token every [FlaskForm] carries. *)
Definition RegisterForm (req : Request) : list (string * bool) :=
  [ ("name", DataRequired (form_get "name" (form req)));
    ("email", Email_validator (form_get "email" (form req))
              && DataRequired (form_get "email" (form req)));
    ("password", DataRequired (form_get "password" (form req))
                 && Length_min 8 (form_get "password" (form req)));
    ("csrf_token", csrf_ok req) ].

(** [class LoginForm(FlaskForm)]. *)
Definition LoginForm (req : Request) : list (string * bool) :=
  [ ("email", DataRequired (form_get "email" (form req)));
    ("password", DataRequired (form_get "password" (form req)));
    ("csrf_token", csrf_ok req) ].

(** ** The handlers *)

Definition home (req : Request) : M Response :=
  cu <- current_user ;;
  match cu with
  | Some u =>
      lists_of_tasks <- query (lists_of_author (User.id u)) ;;
      render_template (index_html (Some lists_of_tasks))
  | None => render_template (index_html None)
  end.

Definition register (req : Request) : M Response :=
  let form_ := RegisterForm req in
  let (valid, form_errors) := validate_on_submit req form_ in
  if valid then
    match form_get "password" (form req) with
    | None => raise AttributeError
    | Some pw =>
        let hash_and_salted_password := generate_password_hash L pw (salt req) in
        let email := form_get "email" (form req) in
        let name := form_get "name" (form req) in
        existing <- query (user_by_email email) ;;
        match existing with
        | Some _ =>
            flash "This email already exists" ;;
            render_template (register_html form_errors)
        | None =>
            new_user <- add_user email (Some hash_and_salted_password) name ;;
            commit ;;
            login_user new_user ;;
            ret (Redirect home_ep)
        end
    end
  else render_template (register_html form_errors).

Definition login (req : Request) : M Response :=
  let form_ := LoginForm req in
  let (valid, form_errors) := validate_on_submit req form_ in
  if valid then
    let email := form_get "email" (form req) in
    let password := form_get "password" (form req) in
    user <- query (user_by_email email) ;;
    match user with
    | None =>
        flash "That email does not exist, please try again." ;;
        ret (Redirect login_ep)
    | Some u =>
        match User.password u, password with
        | Some pwhash, Some pw =>
            if negb (check_password_hash L pwhash pw) then
              flash "Invalid email or password, please try again." ;;
              render_template (login_html form_errors)
            else
              login_user u ;;
              ret (Redirect home_ep)
        | _, _ => raise AttributeError
        end
    end
  else render_template (login_html form_errors).

Definition logout (req : Request) : M Response :=
  logout_user ;;
  render_template (index_html None).

Definition create_list (req : Request) : M Response :=
  login_required (fun user =>
    match method req with
    | POST =>
        new_list <- add_list (Some ("My to-do list " ++ strftime L (today req)))
                      (Some user) ;;
        commit ;;
        new_task <- add_task_row false None
                      (form_get "description" (form req)) (Some new_list) ;;
        commit ;;
        render_template (create_tasks_html (Some new_list) None)
    | GET => render_template make_list_html
    end).

Definition all_task (list_id : nat) (req : Request) : M Response :=
  required_list <- select_list list_id ;;
  render_template (create_tasks_html required_list None).

(** [task.parent_list]. *)
Definition parent_list (t : Task.t) (s : Store) : option ListTODO.t :=
  match Task.tasks_list t with
  | None => None
  | Some i => list_by_id i s
  end.

Definition add_task (list_id : nat) (req : Request) : M Response :=
  parent <- select_list list_id ;;
  new_task <- add_task_row false None (form_get "next_task" (form req)) parent ;;
  commit ;;
  data <- query (parent_list new_task) ;;
  render_template (create_tasks_html data None).

(** [select(Task).where(Task.id == task)] for a submitted text value. *)
Definition task_by_text (task : string) (s : Store) : option Task.t :=
  match integer_of_text L task with
  | None => None
  | Some i => task_by_id i s
  end.

(** The loop that computes [progress]. *)
Definition progress_of (ts : list Task.t) : bool :=
  fold_left (fun progress task => if negb (Task.done task) then false else progress)
    ts true.

(** The body of [for task in tasks_done]. *)
Definition complete_task (task : string) : M unit :=
  task_to_complete <- query (task_by_text task) ;;
  setattr_task task_to_complete (Task.set_done true).

(** The body of [for date in due_to_dates]. *)
Definition overwrite_task (tasks_to_update : list nat)
    (due_to_dates descriptions : list string) (date : string) : M unit :=
  index <- match index date due_to_dates with
           | Some i => ret i
           | None => raise ValueError
           end ;;
  id <- getitem tasks_to_update index ;;
  task_to_update <- query (task_by_id id) ;;
  description <- getitem descriptions index ;;
  setattr_task task_to_update (Task.set_description description) ;;
  if String.eqb date "" then ret tt
  else
    match strptime L date with
    | None => raise ValueError
    | Some due_to_date =>
        setattr_task task_to_update (Task.set_deadline (Some due_to_date))
    end.

Definition update_list (list_id : nat) (req : Request) : M Response :=
  list_to_update <- select_list list_id ;;
  match form_get "name" (form req) with
  | Some n => setattr_list list_to_update (ListTODO.set_name (Some n))
  | None => ret tt
  end ;;
  let tasks_done := form_getlist "done" (form req) in
  tasks_to_update <-
    match list_to_update with
    | None => raise AttributeError
    | Some l =>
        query (fun s => map Task.id
                 (filter (fun task => negb (Task.done task))
                    (tasks_of (ListTODO.id l) s)))
    end ;;
  match tasks_done with
  | [] => ret tt
  | _ :: _ => for_each tasks_done complete_task
  end ;;
  let due_to_dates := form_getlist "deadline" (form req) in
  let descriptions := form_getlist "description" (form req) in
  for_each due_to_dates (overwrite_task tasks_to_update due_to_dates descriptions) ;;
  commit ;;
  progress <- query (fun s => progress_of (tasks_of list_id s)) ;;
  data <- query (list_by_id list_id) ;;
  render_template (create_tasks_html data (Some progress)).

Definition all_lists (req : Request) : M Response :=
  login_required (fun user =>
    lists <- query (lists_of_author (User.id user)) ;;
    render_template (all_lists_html lists)).

Definition delete_list (list_id : nat) (req : Request) : M Response :=
  deleted_list <- select_list list_id ;;
  session_delete deleted_list ;;
  commit ;;
  ret (Redirect all_lists_ep).

(** ** Routing and serving *)

Inductive Route :=
| route_home
| route_register
| route_login
| route_logout
| route_new_list
| route_all_task (list_id : nat)
| route_add_task (list_id : nat)
| route_update_list (list_id : nat)
| route_all_lists
| route_delete_list (list_id : nat).

(** The [methods] of [@app.route]; [GET] alone when none are given. *)
Definition allowed (r : Route) (m : Method) : bool :=
  match r, m with
  | route_register, _ | route_login, _ | route_new_list, _
  | route_update_list _, _ => true
  | route_add_task _, POST => true
  | route_add_task _, GET => false
  | _, GET => true
  | _, POST => false
  end.

Definition view_function (r : Route) : Request -> M Response :=
  match r with
  | route_home => home
  | route_register => register
  | route_login => login
  | route_logout => logout
  | route_new_list => create_list
  | route_all_task i => all_task i
  | route_add_task i => add_task i
  | route_update_list i => update_list i
  | route_all_lists => all_lists
  | route_delete_list i => delete_list i
  end.

(** The state between requests: the store and the client's login session. *)
Record State := mkState {
  db : Store;
  logged_in : option nat }.

Record Outcome := mkOutcome {
  after : State;
  response : Response;
  flashed : list string }.

(** Serving a request: the handler runs on the committed store; what it
    left uncommitted is rolled back when the request ends; an exception
    that leaves it becomes the error response. *)
Definition serve (h : M Response) (st : State) : Outcome :=
  let '(r, c) := h (mkCtx (db st) (db st) (logged_in st) []) in
  mkOutcome (mkState (disk c) (session c))
    (match r with inl e => Failed e | inr resp => resp end)
    (flashes c).

Definition dispatch (r : Route) (req : Request) (st : State) : Outcome :=
  if allowed r (method req) then serve (view_function r req) st
  else mkOutcome st (Failed MethodNotAllowed) [].

End Handlers.

(** ** A library to run the handlers on

    Small stand-ins for the library calls, so that the handlers evaluate on
    concrete requests: the hash wraps the password (the salt is not used),
    an e-mail address is a text with an [@], dates are read and printed
    with four, two and two digits, and a text equals an integer when it is
    its decimal numeral. *)
Module Sample.

Definition digit (c : ascii) : option nat :=
  let n := nat_of_ascii c in
  if (48 <=? n) && (n <=? 57) then Some (n - 48) else None.

Fixpoint number_from (acc : nat) (cs : list ascii) : option nat :=
  match cs with
  | [] => Some acc
  | c :: cs' =>
      match digit c with
      | Some d => number_from (10 * acc + d) cs'
      | None => None
      end
  end.

Definition number (s : string) : option nat :=
  match list_ascii_of_string s with
  | [] => None
  | cs => number_from 0 cs
  end.

Definition digit_char (n : nat) : ascii := ascii_of_nat (48 + n mod 10).

Definition two_digits (n : nat) : string :=
  String (digit_char (n / 10)) (String (digit_char n) "").

Definition four_digits (n : nat) : string :=
  two_digits (n / 100) ++ two_digits n.

Definition parse_date (s : string) : option Date :=
  match number (substring 0 4 s), number (substring 5 2 s), number (substring 8 2 s) with
  | Some y, Some m, Some d =>
      if (String.length s =? 10) && String.eqb (substring 4 1 s) "-"
         && String.eqb (substring 7 1 s) "-"
         && (1 <=? m) && (m <=? 12) && (1 <=? d) && (d <=? 31)
      then Some (mkDate y m d) else None
  | _, _, _ => None
  end.

Definition print_date (d : Date) : string :=
  four_digits (year d) ++ "/" ++ two_digits (month d) ++ "/" ++ two_digits (day d).

Definition library : Library :=
  mkLibrary
    (fun pw _ => "hash(" ++ pw ++ ")")
    (fun pwhash pw => String.eqb pwhash ("hash(" ++ pw ++ ")"))
    (fun s => existsb (Ascii.eqb "@"%char) (list_ascii_of_string s))
    parse_date
    print_date
    number.

(** A client posting a form, its CSRF token in order, on 3 November 2026. *)
Definition post (f : MultiDict) : Request :=
  mkRequest POST f true (mkDate 2026 11 3) "c2FsdA".

Definition get : Request :=
  mkRequest GET [] true (mkDate 2026 11 3) "c2FsdA".

Definition empty : Store := mkStore [] [] [].

(** One user, one list with two open tasks. *)
Definition ann : User.t :=
  User.mk 1 (Some "ann@example.org") (Some "hash(correct horse)") (Some "Ann").

Definition two_tasks : Store :=
  mkStore [ann]
    [ListTODO.mk 1 (Some "My to-do list 2026/11/03") (Some 1)]
    [Task.mk 1 false "Buy milk" (Some 1) None;
     Task.mk 2 false "Call Bob" (Some 1) None].

(** The same user with a list that has no task. *)
Definition no_tasks : Store :=
  mkStore [ann] [ListTODO.mk 1 (Some "My to-do list 2026/11/03") (Some 1)] [].

(** A bulk update of list 1: task 1 is done, and two rows of the form. *)
Definition bulk_update : Request :=
  post [("done", "1");
        ("deadline", "2026-12-01"); ("description", "Buy oat milk");
        ("deadline", ""); ("description", "Call Bob back")].

(** The letter e with an acute accent, two bytes in UTF-8, and the no-break
    space. *)
Definition e_acute : string :=
  String (ascii_of_nat 195) (String (ascii_of_nat 169) "").

Definition no_break_space : string :=
  String (ascii_of_nat 194) (String (ascii_of_nat 160) "").

End Sample.

(** * The vocabulary of the properties *)

(** ** Computations *)

(** What stays as it was whatever a computation returns: the committed
    store, the session and the flashed messages. *)
Definition quiet {A} (m : M A) : Prop :=
  forall c r c', m c = (r, c') ->
    disk c' = disk c /\ session c' = session c /\ flashes c' = flashes c.

(** ** The bulk update *)

(** [g] rewrites description and deadline only. *)
Definition edits (g : Task.t -> Task.t) : Prop :=
  forall t, Task.id (g t) = Task.id t /\ Task.done (g t) = Task.done t
            /\ Task.tasks_list (g t) = Task.tasks_list t.

(** The task ids that the submitted texts of the field [done] stand for. *)
Definition done_ids (L : Library) (tasks_done : list string) : list nat :=
  flat_map (fun task => match integer_of_text L task with
                        | Some i => [i]
                        | None => []
                        end) tasks_done.

(** A task after the loop over [tasks_done]. *)
Definition mark_done (ids : list nat) (t : Task.t) : Task.t :=
  if existsb (Nat.eqb (Task.id t)) ids then Task.set_done true t else t.

(** The deadline an iteration for [date] assigns, if it assigns one. *)
Definition due_of (L : Library) (date : string) : option Date :=
  if String.eqb date "" then None else strptime L date.

(** A task after an iteration that targets the task [tid]. *)
Definition write (tid : nat) (x : string) (due : option Date) (t : Task.t) : Task.t :=
  if Task.id t =? tid then
    match due with
    | Some d => Task.set_deadline (Some d) (Task.set_description x t)
    | None => Task.set_description x t
    end
  else t.

(** The store after the assignment to [list_to_update.name], if there is one. *)
Definition renamed (list_id : nat) (req : Request) (s : Store) : Store :=
  match form_get "name" (form req) with
  | Some n => update_list_row list_id (ListTODO.set_name (Some n)) s
  | None => s
  end.

(** [tasks_to_update]: the ids of the tasks of the list that are not done. *)
Definition open_ids (list_id : nat) (s : Store) : list nat :=
  map Task.id (filter (fun task => negb (Task.done task)) (tasks_of list_id s)).

(** The task [tid] carries the description submitted at position [i] and,
    for a deadline that is not empty, the date it parses to. *)
Definition written (L : Library) (descriptions : list string) (i : nat)
    (date : string) (tid : nat) (s : Store) : Prop :=
  exists t, task_by_id tid s = Some t /\
    nth_error descriptions i = Some (Task.description t) /\
    (String.eqb date "" = false ->
     exists d, strptime L date = Some d /\ Task.deadline t = Some d).

(** ** What a request can do to the store *)

(** The changes of the committed store that serving one request of a route
    can make; every alternative mentions what the handler wrote. *)
Inductive effect (r : Route) (s : Store) : Store -> Prop :=
| eff_none : effect r s s
| eff_user (u : User.t) :
    r = route_register ->
    User.id u = next_id (map User.id (users s)) ->
    effect r s (insert_user u s)
| eff_list (l : ListTODO.t) :
    r = route_new_list ->
    ListTODO.id l = next_id (map ListTODO.id (lists s)) ->
    effect r s (insert_list l s)
| eff_list_task (l : ListTODO.t) (d : string) :
    r = route_new_list ->
    ListTODO.id l = next_id (map ListTODO.id (lists s)) ->
    effect r s
      (insert_task
         (Task.mk (next_id (map Task.id (tasks s))) false d (Some (ListTODO.id l)) None)
         (insert_list l s))
| eff_task (i : nat) (d : string) :
    r = route_add_task i ->
    effect r s
      (insert_task
         (Task.mk (next_id (map Task.id (tasks s))) false d
            (option_map ListTODO.id (list_by_id i s)) None)
         s)
| eff_update (i : nat) (h : ListTODO.t -> ListTODO.t) (g : Task.t -> Task.t) :
    r = route_update_list i ->
    (forall l, ListTODO.id (h l) = ListTODO.id l) ->
    (forall t, Task.id (g t) = Task.id t /\
               Task.tasks_list (g t) = Task.tasks_list t /\
               (Task.done t = true -> Task.done (g t) = true)) ->
    effect r s (mkStore (users s) (map h (lists s)) (map g (tasks s)))
| eff_delete (i : nat) (l : ListTODO.t) :
    r = route_delete_list i ->
    list_by_id i s = Some l ->
    effect r s (delete_list_row i s).

(** ** Tasks and their lists *)

(** Primary keys: no two rows of a table have the same id. *)
Definition keys_ok (s : Store) : Prop :=
  NoDup (map User.id (users s)) /\
  NoDup (map ListTODO.id (lists s)) /\
  NoDup (map Task.id (tasks s)).

(** The task belongs to exactly one list of the store: its foreign key is
    the id of exactly one row of the lists. *)
Definition belongs_to_one_list (s : Store) (t : Task.t) : Prop :=
  exists p, Task.tasks_list t = Some p /\
            count_occ Nat.eq_dec (map ListTODO.id (lists s)) p = 1.

Definition every_task_has_a_list (s : Store) : Prop :=
  Forall (belongs_to_one_list s) (tasks s).

(** The foreign key is null or the id of exactly one list. *)
Definition parent_ok (s : Store) (t : Task.t) : Prop :=
  Task.tasks_list t = None \/ belongs_to_one_list s t.

(** ** The stores the program reaches *)

(** The states reached from the empty store by serving requests. *)
Inductive reachable (L : Library) : State -> Prop :=
| reach_start (who : option nat) : reachable L (mkState (mkStore [] [] []) who)
| reach_serve (st : State) (r : Route) (req : Request) :
    reachable L st -> reachable L (after (dispatch L r req st)).

(** ** Users and sessions *)

(** The emails of the user rows that have one. *)
Definition emails (s : Store) : list string :=
  flat_map (fun u => match User.email u with
                     | Some e => [e]
                     | None => []
                     end) (users s).

(** [unique=True] on [User.email]: no two rows have the same email. *)
Definition emails_unique (s : Store) : Prop := NoDup (emails s).

(** The login session, if there is one, is the session of a user of the
    store. *)
Definition session_ok (st : State) : Prop :=
  match logged_in st with
  | Some uid => exists u, user_by_id uid (db st) = Some u
  | None => True
  end.

(** What [render_template] answers: the view, or 404 when the user of the
    session is not in the store. *)
Definition rendered (who : option nat) (s : Store) (v : View) : Response :=
  match who with
  | Some uid =>
      match user_by_id uid s with
      | Some _ => Render v
      | None => Failed NotFound
      end
  | None => Render v
  end.

(** [xs] with rows added at its end. *)
Definition extends {A} (xs ys : list A) : Prop := exists more, ys = (xs ++ more)%list.

(** * Properties *)

Create HintDb req.
#[local] Hint Unfold bind ret raise query modify commit flash login_user
  logout_user render_template select_list current_user load_user
  setattr_task setattr_list getitem session_delete : req.

Ltac run := autounfold with req in *; cbn in *.

(** The cases of loading the user of the session, where the goal does not
    depend on them. *)
Ltac split_session :=
  repeat match goal with
    | |- context [match logged_in ?st with _ => _ end] => destruct (logged_in st); cbn
    | |- context [match user_by_id ?u ?s with _ => _ end] =>
        destruct (user_by_id u s); cbn
    | |- context [match find ?p (users ?s) with _ => _ end] =>
        destruct (find p (users s)); cbn
    end.

(** The cases of the request as well. *)
Ltac split_request :=
  repeat first
    [ progress split_session
    | match goal with
      | |- context [match method ?r with _ => _ end] => destruct (method r); cbn
      | |- context [match form_get ?k ?f with _ => _ end] =>
          destruct (form_get k f); cbn
      | |- context [match list_by_id ?i ?s with _ => _ end] =>
          destruct (list_by_id i s); cbn
      | |- context [if fits ?i then _ else _] => destruct (fits i); cbn
      end ].

(** The two cases of a session that is absent or that of a user of the
    store. *)
Ltac with_session Hok :=
  unfold session_ok in Hok; cbn in Hok;
  match type of Hok with
  | match ?w with _ => _ end =>
      destruct w as [?uid|]; cbn;
      [let Hu := fresh "Hu" in
       destruct Hok as [?u Hu]; unfold user_by_id in *; cbn in *;
       repeat (rewrite Hu; cbn)|]
  end.

(** ** Generalities *)

Lemma state_eta (st : State) : mkState (db st) (logged_in st) = st.
Proof. destruct st; reflexivity. Qed.

Lemma store_eta (s : Store) : mkStore (users s) (lists s) (tasks s) = s.
Proof. destruct s; reflexivity. Qed.

Lemma failed_fields_nil (checks : list (string * bool)) :
  failed_fields checks = [] -> Forall (fun check => snd check = true) checks.
Proof.
  unfold failed_fields.
  induction checks as [|[k b] checks IH]; cbn; intros H; constructor.
  - destruct b; [reflexivity | discriminate].
  - apply IH. destruct b; [exact H | discriminate].
Qed.

Lemma le_fold_max (ids : list nat) (i : nat) :
  In i ids -> i <= fold_right Nat.max 0 ids.
Proof.
  induction ids as [|j ids IH]; cbn; intros H; [contradiction|].
  destruct H as [-> | H]; [lia | specialize (IH H); lia].
Qed.

Lemma next_id_fresh (ids : list nat) : ~ In (next_id ids) ids.
Proof.
  intros H. apply le_fold_max in H. unfold next_id in H. lia.
Qed.

Lemma find_id_some {A} (key : A -> nat) (i : nat) (rows : list A) (r : A) :
  find (fun x => key x =? i) rows = Some r -> In r rows /\ key r = i.
Proof.
  intros H. apply find_some in H. destruct H as [Hin Heq].
  split; [exact Hin | apply Nat.eqb_eq; exact Heq].
Qed.


(** ** Sessions and forms *)

Lemma rendered_ok (st : State) (s : Store) (v : View) :
  session_ok st -> users s = users (db st) -> rendered (logged_in st) s v = Render v.
Proof.
  unfold session_ok, rendered, user_by_id. intros Hok ->.
  destruct (logged_in st) as [uid|]; [|reflexivity].
  destruct Hok as [u Hu]. unfold user_by_id in Hu. rewrite Hu. reflexivity.
Qed.

Lemma rendered_inv (who : option nat) (s : Store) (v v' : View) :
  rendered who s v = Render v' -> v = v'.
Proof.
  unfold rendered. destruct who as [uid|]; [destruct (user_by_id uid s)|];
    intros H; try discriminate; injection H as ->; reflexivity.
Qed.

Lemma rendered_failed (who : option nat) (s : Store) (v : View) (e : Exception) :
  rendered who s v = Failed e ->
  exists uid, who = Some uid /\ user_by_id uid s = None.
Proof.
  unfold rendered. destruct who as [uid|]; [|discriminate].
  destruct (user_by_id uid s) eqn:Hu; [discriminate|]. eauto.
Qed.

Lemma In_check (checks : list (string * bool)) (k : string) (b : bool) :
  failed_fields checks = [] -> In (k, b) checks -> b = true.
Proof.
  intros Hf Hin. apply failed_fields_nil in Hf. rewrite Forall_forall in Hf.
  exact (Hf _ Hin).
Qed.

Section Forms.

Variable L : Library.

(** What a registration form that validates has submitted. *)
Lemma register_valid_fields (req : Request) :
  fst (validate_on_submit req (RegisterForm L req)) = true ->
  method req = POST /\ csrf_ok req = true /\
  failed_fields (RegisterForm L req) = [] /\
  exists n e pw,
    form_get "name" (form req) = Some n /\
    form_get "email" (form req) = Some e /\
    form_get "password" (form req) = Some pw /\
    DataRequired (Some n) = true /\ DataRequired (Some e) = true /\
    Email L e = true /\ DataRequired (Some pw) = true /\
    8 <= characters pw.
Proof.
  unfold validate_on_submit, is_submitted. intros H.
  destruct (method req); [discriminate|]. split; [reflexivity|].
  destruct (failed_fields (RegisterForm L req)) eqn:Hf; [|discriminate].
  pose proof (In_check _ "csrf_token" _ Hf
                (or_intror (or_intror (or_intror (or_introl eq_refl))))) as Hc.
  pose proof (In_check _ "name" _ Hf (or_introl eq_refl)) as Hn.
  pose proof (In_check _ "email" _ Hf (or_intror (or_introl eq_refl))) as He.
  pose proof (In_check _ "password" _ Hf
                (or_intror (or_intror (or_introl eq_refl)))) as Hp.
  split; [exact Hc|]. split; [reflexivity|].
  destruct (form_get "name" (form req)) as [n|]; [|discriminate].
  destruct (form_get "email" (form req)) as [e|]; [|discriminate].
  destruct (form_get "password" (form req)) as [pw|]; [|discriminate].
  apply andb_true_iff in He. destruct He as [He1 He2].
  apply andb_true_iff in Hp. destruct Hp as [Hp1 Hp2].
  exists n, e, pw. repeat split; try assumption.
  unfold Length_min in Hp2. apply Nat.leb_le. exact Hp2.
Qed.


End Forms.

(** ** Registration *)

Section Registration.

Variable L : Library.


End Registration.



(** ** Login *)

Section Login.

Variable L : Library.


End Login.



(** ** Creating a list *)

Section CreateList.

Variable L : Library.

(** C5, as the code has it.  A "new list" POST of a logged-in user that
    submits a description adds exactly one row to the lists, owned by the
    caller and named with the date of the day, and exactly one row to the
    tasks, with the submitted description, not done, without deadline, in
    the new list; both rows have fresh ids and nothing else changes. *)
Theorem create_list_adds_one_list_and_one_task
    (req : Request) (st : State) (uid : nat) (user : User.t) (d : string) :
  method req = POST ->
  logged_in st = Some uid ->
  user_by_id uid (db st) = Some user ->
  form_get "description" (form req) = Some d ->
  let out := dispatch L route_new_list req st in
  let new_list :=
    ListTODO.mk (next_id (map ListTODO.id (lists (db st))))
      (Some ("My to-do list " ++ strftime L (today req))) (Some uid) in
  let new_task :=
    Task.mk (next_id (map Task.id (tasks (db st)))) false d
      (Some (ListTODO.id new_list)) None in
  users (db (after out)) = users (db st) /\
  lists (db (after out)) = (lists (db st) ++ [new_list])%list /\
  tasks (db (after out)) = (tasks (db st) ++ [new_task])%list /\
  ~ In (ListTODO.id new_list) (map ListTODO.id (lists (db st))) /\
  ~ In (Task.id new_task) (map Task.id (tasks (db st))) /\
  logged_in (after out) = logged_in st /\
  response out = Render (create_tasks_html (Some new_list) None).
Proof.
  intros Hm Hs Hu Hd. cbv zeta.
  assert (Hid : User.id user = uid)
    by (apply (find_id_some User.id uid (users (db st)) user Hu)).
  unfold dispatch. rewrite Hm. cbn [allowed view_function].
  unfold serve, create_list, login_required.
  rewrite Hm. run. rewrite Hs. cbn. rewrite Hu. cbn. rewrite Hd. cbn.
  unfold user_by_id in *. cbn. rewrite Hu. cbn.
  rewrite Hid.
  repeat split; try reflexivity; apply next_id_fresh.
Qed.

End CreateList.

Lemma create_list_adds_one_list_and_one_task_witness :
  let req := Sample.post [("description", "Buy milk")] in
  let out := dispatch Sample.library route_new_list req
               (mkState Sample.two_tasks (Some 1)) in
  lists (db (after out)) =
    (lists Sample.two_tasks ++
     [ListTODO.mk 2 (Some "My to-do list 2026/11/03") (Some 1)])%list /\
  tasks (db (after out)) =
    (tasks Sample.two_tasks ++ [Task.mk 3 false "Buy milk" (Some 2) None])%list.
Proof.
  pose proof (create_list_adds_one_list_and_one_task Sample.library
    (Sample.post [("description", "Buy milk")])
    (mkState Sample.two_tasks (Some 1)) 1 Sample.ann "Buy milk"
    eq_refl eq_refl eq_refl eq_refl) as H.
  cbv zeta in H. destruct H as (_ & Hl & Ht & _).
  split; [exact Hl | exact Ht].
Defined.

(** C5, as the claim has it, fails: a "new list" POST of a logged-in user
    that submits no description creates the list and no task, and ends in a
    server error. *)
Lemma new_list_post_without_description :
  let st := mkState Sample.two_tasks (Some 1) in
  let out := dispatch Sample.library route_new_list (Sample.post []) st in
  lists (db (after out)) =
    (lists Sample.two_tasks ++
     [ListTODO.mk 2 (Some "My to-do list 2026/11/03") (Some 1)])%list /\
  tasks (db (after out)) = tasks Sample.two_tasks /\
  response out = Failed IntegrityError /\
  status_code (response out) = 500.
Proof.
  cbv zeta. repeat split; reflexivity.
Qed.

(** X22. Without a description the task cannot be stored: the list,
    committed before, stays alone and the request ends in a server error. *)
Lemma create_list_without_description (L : Library) (st : State) (uid : nat)
    (user : User.t) (req : Request) :
  method req = POST ->
  logged_in st = Some uid ->
  user_by_id uid (db st) = Some user ->
  form_get "description" (form req) = None ->
  let out := dispatch L route_new_list req st in
  response out = Failed IntegrityError /\
  tasks (db (after out)) = tasks (db st) /\
  List.length (lists (db (after out))) = S (List.length (lists (db st))).
Proof.
  intros Hm Hs Hu Hd. cbv zeta.
  unfold dispatch. rewrite Hm. cbn [allowed view_function].
  unfold serve, create_list, login_required.
  rewrite Hm. run. rewrite Hs. cbn. rewrite Hu. cbn. rewrite Hd. cbn.
  repeat split. rewrite length_app. cbn. lia.
Qed.

(** ** A list id that is not in the store *)

Section AbsentList.

Variable L : Library.

(** C2, what the code does.  With a list id that no row has (an integer
    SQLite takes, from a client whose session, if it has one, is that of a
    user of the store), none of the four handlers that fetch the list by id
    answers 404: the view is rendered without a list; a task is added, with
    no parent list, and the view is rendered; the bulk update and the
    deletion end in an uncaught exception, a server error. *)
Theorem absent_list_id_is_not_a_404 (i : nat) (req : Request) (st : State) :
  list_by_id i (db st) = None ->
  fits i = true ->
  session_ok st ->
  (forall r, In r [route_all_task i; route_add_task i;
                   route_update_list i; route_delete_list i] ->
     status_code (response (dispatch L r req st)) <> 404) /\
  response (serve (all_task i req) st) = Render (create_tasks_html None None) /\
  (forall d, form_get "next_task" (form req) = Some d ->
     response (serve (add_task i req) st) = Render (create_tasks_html None None) /\
     tasks (db (after (serve (add_task i req) st))) =
       (tasks (db st) ++
        [Task.mk (next_id (map Task.id (tasks (db st)))) false d None None])%list) /\
  response (serve (update_list L i req) st) = Failed AttributeError /\
  response (serve (delete_list i req) st) = Failed UnmappedInstanceError.
Proof.
  intros Hnone Hfit Hok.
  assert (Huser : forall uid, logged_in st = Some uid ->
                    exists u, find (fun u => User.id u =? uid) (users (db st)) = Some u).
  { intros uid Hs. unfold session_ok in Hok. rewrite Hs in Hok. exact Hok. }
  assert (Hall : response (serve (all_task i req) st)
                 = Render (create_tasks_html None None)).
  { unfold serve, all_task. run. rewrite Hnone, Hfit. cbn.
    destruct (logged_in st) as [uid|] eqn:Hs; [|reflexivity].
    destruct (Huser uid eq_refl) as [u Hu]. cbn. unfold user_by_id. rewrite Hu.
    reflexivity. }
  assert (Hadd : forall d, form_get "next_task" (form req) = Some d ->
     response (serve (add_task i req) st) = Render (create_tasks_html None None) /\
     tasks (db (after (serve (add_task i req) st))) =
       (tasks (db st) ++
        [Task.mk (next_id (map Task.id (tasks (db st)))) false d None None])%list).
  { intros d Hd. unfold serve, add_task, add_task_row. rewrite Hd. run.
    rewrite Hnone, Hfit. cbn.
    destruct (logged_in st) as [uid|] eqn:Hs; [|split; reflexivity].
    destruct (Huser uid eq_refl) as [u Hu]. cbn. unfold user_by_id. cbn. rewrite Hu.
    split; reflexivity. }
  assert (Hupd : response (serve (update_list L i req) st) = Failed AttributeError).
  { unfold serve, update_list. run. rewrite Hnone, Hfit.
    destruct (form_get "name" (form req)); reflexivity. }
  assert (Hdel : response (serve (delete_list i req) st)
                 = Failed UnmappedInstanceError).
  { unfold serve, delete_list. run. rewrite Hnone, Hfit. reflexivity. }
  split; [|auto].
  intros r Hr. unfold dispatch.
  destruct (allowed r (method req)); [|cbn; discriminate].
  cbn in Hr. destruct Hr as [<-|[<-|[<-|[<-|[]]]]]; cbn [view_function].
  - rewrite Hall. discriminate.
  - destruct (form_get "next_task" (form req)) as [d|] eqn:Hd.
    + rewrite (proj1 (Hadd d eq_refl)). discriminate.
    + unfold serve, add_task, add_task_row. rewrite Hd. run.
      rewrite Hnone, Hfit. cbn. discriminate.
  - rewrite Hupd. discriminate.
  - rewrite Hdel. discriminate.
Qed.

End AbsentList.

Lemma absent_list_id_is_not_a_404_witness :
  response (dispatch Sample.library (route_delete_list 7) Sample.get
              (mkState Sample.empty None)) = Failed UnmappedInstanceError /\
  status_code (response (dispatch Sample.library (route_delete_list 7) Sample.get
                           (mkState Sample.empty None))) = 500 /\
  tasks (db (after (dispatch Sample.library (route_add_task 7)
                      (Sample.post [("next_task", "Buy milk")])
                      (mkState Sample.empty None)))) =
    [Task.mk 1 false "Buy milk" None None].
Proof.
  pose proof (absent_list_id_is_not_a_404 Sample.library 7
    (Sample.post [("next_task", "Buy milk")]) (mkState Sample.empty None)
    eq_refl eq_refl I) as (_ & _ & Hadd & _ & Hdel).
  split; [exact Hdel|]. split; [reflexivity|].
  exact (proj2 (Hadd "Buy milk" eq_refl)).
Defined.

(** ** Bulk update: the positional pairing *)

(** C1, on the code.  Two open tasks and a bulk update that submits two
    empty deadlines with the descriptions "a" and "b": [index] finds the
    first of the two equal deadlines both times, so the first task gets
    "a" twice and the second task keeps its description; "b" is written
    nowhere.  No library call decides this. *)
Theorem equal_deadlines_pair_with_the_first_position (L : Library) :
  let req := Sample.post [("deadline", ""); ("description", "a");
                          ("deadline", ""); ("description", "b")] in
  let out := dispatch L (route_update_list 1) req (mkState Sample.two_tasks None) in
  form_getlist "deadline" (form req) = [""; ""] /\
  form_getlist "description" (form req) = ["a"; "b"] /\
  map Task.id (filter (fun t => negb (Task.done t)) (tasks_of 1 Sample.two_tasks))
    = [1; 2] /\
  status_code (response out) = 200 /\
  tasks (db (after out)) =
    [Task.mk 1 false "a" (Some 1) None;
     Task.mk 2 false "Call Bob" (Some 1) None].
Proof.
  cbv zeta. repeat split; reflexivity.
Qed.

(** ** Rows updated in place *)

Lemma find_map_key {A} (key : A -> nat) (g : A -> A) (j : nat) (rows : list A) :
  (forall x, key (g x) = key x) ->
  find (fun x => key x =? j) (map g rows)
  = option_map g (find (fun x => key x =? j) rows).
Proof.
  intros Hg. induction rows as [|r rows IH]; cbn; [reflexivity|].
  rewrite Hg. destruct (key r =? j); [reflexivity | exact IH].
Qed.

Lemma filter_map_stable {A} (p : A -> bool) (g : A -> A) (rows : list A) :
  (forall x, p (g x) = p x) ->
  filter p (map g rows) = map g (filter p rows).
Proof.
  intros Hg. induction rows as [|r rows IH]; cbn; [reflexivity|].
  rewrite Hg. destruct (p r); cbn; rewrite IH; reflexivity.
Qed.

Lemma NoDup_map_filter {A} (key : A -> nat) (p : A -> bool) (rows : list A) :
  NoDup (map key rows) -> NoDup (map key (filter p rows)).
Proof.
  induction rows as [|r rows IH]; cbn; intros H; [constructor|].
  inversion H as [|? ? Hnotin Hnd]; subst.
  destruct (p r); cbn; [constructor|]; auto.
  intros Hin. apply Hnotin. apply in_map_iff in Hin.
  destruct Hin as [x [Hx Hin]]. apply filter_In in Hin.
  apply in_map_iff. exists x. tauto.
Qed.

Lemma edits_id : edits (fun t => t).
Proof. intros t. auto. Qed.

Lemma edits_compose (g h : Task.t -> Task.t) :
  edits g -> edits h -> edits (fun t => h (g t)).
Proof.
  intros Hg Hh t. destruct (Hg t) as (? & ? & ?). destruct (Hh (g t)) as (? & ? & ?).
  repeat split; congruence.
Qed.

Lemma task_by_id_map (g : Task.t -> Task.t) (j : nat) (s : Store) :
  (forall t, Task.id (g t) = Task.id t) ->
  task_by_id j (mkStore (users s) (lists s) (map g (tasks s)))
  = option_map g (task_by_id j s).
Proof. intros Hg. unfold task_by_id. cbn. apply find_map_key. exact Hg. Qed.

Lemma tasks_of_map (g : Task.t -> Task.t) (lid : nat) (us : list User.t)
    (ls : list ListTODO.t) (ts : list Task.t) :
  (forall t, Task.tasks_list (g t) = Task.tasks_list t) ->
  tasks_of lid (mkStore us ls (map g ts)) = map g (tasks_of lid (mkStore us ls ts)).
Proof.
  intros Hg. unfold tasks_of. cbn. apply filter_map_stable.
  intros t. rewrite Hg. reflexivity.
Qed.

(** ** The loops of the bulk update *)

Section Loops.

Variable L : Library.

Lemma mark_done_id (ids : list nat) (t : Task.t) :
  Task.id (mark_done ids t) = Task.id t.
Proof. unfold mark_done. destruct (existsb _ ids); reflexivity. Qed.

Lemma mark_done_tasks_list (ids : list nat) (t : Task.t) :
  Task.tasks_list (mark_done ids t) = Task.tasks_list t.
Proof. unfold mark_done. destruct (existsb _ ids); reflexivity. Qed.

Lemma mark_done_done (ids : list nat) (t : Task.t) :
  Task.done (mark_done ids t) = Task.done t || existsb (Nat.eqb (Task.id t)) ids.
Proof.
  unfold mark_done. destruct (existsb _ ids); cbn.
  - rewrite orb_true_r. reflexivity.
  - rewrite orb_false_r. reflexivity.
Qed.

Lemma mark_done_cons (i : nat) (ids : list nat) (t : Task.t) :
  mark_done ids (if Task.id t =? i then Task.set_done true t else t)
  = mark_done (i :: ids) t.
Proof.
  unfold mark_done. cbn [existsb].
  destruct (Task.id t =? i) eqn:Hi; cbn.
  - destruct (existsb _ ids); reflexivity.
  - reflexivity.
Qed.

Lemma complete_task_run (task : string) (c : Ctx) :
  complete_task L task c =
  match task_by_text L task (pending c) with
  | None => (inl AttributeError, c)
  | Some t =>
      (inr tt, mkCtx (disk c)
                 (update_task_row (Task.id t) (Task.set_done true) (pending c))
                 (session c) (flashes c))
  end.
Proof.
  unfold complete_task. run.
  destruct (task_by_text L task (pending c)); reflexivity.
Qed.

(** The loop over [tasks_done], when it ends without an exception, has set
    [done] in exactly the rows the texts stand for, each of which exists. *)
Lemma complete_tasks_run (tasks_done : list string) (c c' : Ctx) :
  for_each tasks_done (complete_task L) c = (inr tt, c') ->
  c' = mkCtx (disk c)
         (mkStore (users (pending c)) (lists (pending c))
            (map (mark_done (done_ids L tasks_done)) (tasks (pending c))))
         (session c) (flashes c)
  /\ Forall (fun task => exists t, task_by_text L task (pending c) = Some t)
       tasks_done.
Proof.
  revert c. induction tasks_done as [|task rest IH]; intros c H.
  - cbn in H. injection H as <-. split; [|constructor].
    cbn. unfold mark_done. cbn. rewrite map_id, store_eta. destruct c; reflexivity.
  - cbn [for_each] in H. unfold bind in H. rewrite complete_task_run in H.
    destruct (task_by_text L task (pending c)) as [t|] eqn:Ht; [|discriminate].
    apply IH in H. cbn in H. destruct H as [-> Hall].
    assert (Hex : exists t0, task_by_text L task (pending c) = Some t0) by eauto.
    unfold task_by_text in Ht.
    destruct (integer_of_text L task) as [i|] eqn:Hi; [|discriminate].
    apply find_id_some in Ht. destruct Ht as [_ Hid].
    split.
    + f_equal. f_equal. unfold update_where. rewrite map_map.
      unfold done_ids. cbn [flat_map]. rewrite Hi. cbn [app].
      fold (done_ids L rest).
      apply map_ext. intros t'. rewrite Hid. apply mark_done_cons.
    + constructor.
      * exact Hex.
      * revert Hall. apply Forall_impl. intros task' [t' Ht'].
        unfold task_by_text in *.
        destruct (integer_of_text L task') as [j|]; [|discriminate].
        unfold update_task_row, update_where in Ht'.
        rewrite task_by_id_map in Ht'.
        -- destruct (task_by_id j (pending c)); [eauto | discriminate].
        -- intros x. destruct (Task.id x =? Task.id t); reflexivity.
Qed.

End Loops.

Lemma index_nth (x : string) (xs : list string) (k : nat) :
  index x xs = Some k -> nth_error xs k = Some x.
Proof.
  revert k. induction xs as [|y ys IH]; cbn; intros k H; [discriminate|].
  destruct (String.eqb y x) eqn:Hy.
  - injection H as <-. apply String.eqb_eq in Hy. subst. reflexivity.
  - destruct (index x ys) as [j|]; [|discriminate].
    injection H as <-. cbn. apply IH. reflexivity.
Qed.

Lemma quiet_ret {A} (a : A) : quiet (ret a).
Proof. intros c r c' H. injection H as <- <-. auto. Qed.

Lemma quiet_raise {A} (e : Exception) : quiet (@raise A e).
Proof. intros c r c' H. injection H as <- <-. auto. Qed.

Lemma quiet_query {A} (f : Store -> A) : quiet (query f).
Proof. intros c r c' H. injection H as <- <-. auto. Qed.

Lemma quiet_modify (f : Store -> Store) : quiet (modify f).
Proof. intros c r c' H. injection H as <- <-. cbn. auto. Qed.

Lemma quiet_bind {A B} (m : M A) (k : A -> M B) :
  quiet m -> (forall a, quiet (k a)) -> quiet (bind m k).
Proof.
  intros Hm Hk c r c' H. unfold bind in H.
  destruct (m c) as [[e|a] c1] eqn:Hmc.
  - injection H as <- <-. exact (Hm _ _ _ Hmc).
  - destruct (Hm _ _ _ Hmc) as (H1 & H2 & H3).
    destruct (Hk a _ _ _ H) as (H4 & H5 & H6).
    repeat split; congruence.
Qed.

Lemma quiet_for_each {A} (xs : list A) (body : A -> M unit) :
  (forall x, quiet (body x)) -> quiet (for_each xs body).
Proof.
  intros Hb. induction xs as [|x xs IH]; cbn [for_each].
  - apply quiet_ret.
  - apply quiet_bind; [apply Hb | intros _; exact IH].
Qed.

Lemma quiet_setattr_task (o : option Task.t) (f : Task.t -> Task.t) :
  quiet (setattr_task o f).
Proof. destruct o; [apply quiet_modify | apply quiet_raise]. Qed.

Lemma quiet_setattr_list (o : option ListTODO.t) (f : ListTODO.t -> ListTODO.t) :
  quiet (setattr_list o f).
Proof. destruct o; [apply quiet_modify | apply quiet_raise]. Qed.

Lemma quiet_getitem {A} (xs : list A) (i : nat) : quiet (getitem xs i).
Proof.
  unfold getitem. destruct (nth_error xs i); [apply quiet_ret | apply quiet_raise].
Qed.

#[local] Hint Resolve quiet_ret quiet_raise quiet_query quiet_modify
  quiet_setattr_task quiet_setattr_list quiet_getitem : req.

Section Overwrite.

Variable L : Library.

Lemma quiet_complete_task (task : string) : quiet (complete_task L task).
Proof.
  unfold complete_task. apply quiet_bind; auto with req.
Qed.

Lemma quiet_overwrite_task (ids : list nat) (dates descriptions : list string)
    (date : string) :
  quiet (overwrite_task L ids dates descriptions date).
Proof.
  unfold overwrite_task.
  apply quiet_bind; [destruct (index date dates); auto with req|]. intros k.
  apply quiet_bind; [auto with req|]. intros tid.
  apply quiet_bind; [auto with req|]. intros o.
  apply quiet_bind; [auto with req|]. intros x.
  apply quiet_bind; [auto with req|]. intros _.
  destruct (String.eqb date ""); [auto with req|].
  destruct (strptime L date); auto with req.
Qed.

Lemma edits_write (tid : nat) (x : string) (due : option Date) :
  edits (write tid x due).
Proof.
  intros t. unfold write. destruct (Task.id t =? tid); [|auto].
  destruct due; cbn; auto.
Qed.

(** One iteration that ends without an exception: the position is the one
    [index] returns, and the task at that position of [ids] is written. *)
Lemma overwrite_task_run (ids : list nat) (dates descriptions : list string)
    (date : string) (c c' : Ctx) :
  overwrite_task L ids dates descriptions date c = (inr tt, c') ->
  exists k tid x,
    index date dates = Some k /\ nth_error ids k = Some tid /\
    nth_error descriptions k = Some x /\
    (String.eqb date "" = false -> exists d, strptime L date = Some d) /\
    (exists t, task_by_id tid (pending c) = Some t) /\
    c' = mkCtx (disk c)
           (mkStore (users (pending c)) (lists (pending c))
              (map (write tid x (due_of L date)) (tasks (pending c))))
           (session c) (flashes c).
Proof.
  unfold overwrite_task, due_of. intros H. run.
  destruct (index date dates) as [k|] eqn:Hk; [|discriminate]. cbn in H.
  destruct (nth_error ids k) as [tid|] eqn:Htid; [|discriminate]. cbn in H.
  destruct (nth_error descriptions k) as [x|] eqn:Hx; [|discriminate]. cbn in H.
  destruct (task_by_id tid (pending c)) as [t|] eqn:Ht; [|discriminate]. cbn in H.
  pose proof (find_id_some Task.id tid _ t Ht) as [_ Hid].
  exists k, tid, x. repeat split; try assumption; try reflexivity.
  - intros Hd. rewrite Hd in H.
    destruct (strptime L date) as [d|]; [eauto | discriminate].
  - eauto.
  - destruct (String.eqb date "").
    + injection H as <-. f_equal. unfold update_task_row, update_where, write.
      rewrite Hid. reflexivity.
    + destruct (strptime L date) as [d|]; [|discriminate].
      injection H as <-. f_equal. unfold update_task_row, update_where, write.
      cbn. rewrite map_map. f_equal. apply map_ext. intros t'. rewrite Hid.
      destruct (Task.id t' =? tid) eqn:Ht'; cbn; rewrite Ht'; reflexivity.
Qed.

(** The whole loop rewrites descriptions and deadlines, nothing else. *)
Lemma overwrite_tasks_run (ids : list nat) (dates descriptions : list string)
    (ds : list string) (c c' : Ctx) :
  for_each ds (overwrite_task L ids dates descriptions) c = (inr tt, c') ->
  exists g, edits g /\
    c' = mkCtx (disk c)
           (mkStore (users (pending c)) (lists (pending c)) (map g (tasks (pending c))))
           (session c) (flashes c).
Proof.
  revert c. induction ds as [|date ds IH]; intros c H.
  - cbn in H. injection H as <-. exists (fun t => t). split; [apply edits_id|].
    rewrite map_id, store_eta. destruct c; reflexivity.
  - cbn [for_each] in H. unfold bind in H.
    destruct (overwrite_task L ids dates descriptions date c) as [[e|[]] c1] eqn:H1;
      [discriminate|].
    apply overwrite_task_run in H1.
    destruct H1 as (k & tid & x & _ & _ & _ & _ & _ & ->).
    apply IH in H. destruct H as (g & Hg & ->). cbn.
    exists (fun t => g (write tid x (due_of L date) t)). split.
    + apply edits_compose; [apply edits_write | exact Hg].
    + rewrite map_map. reflexivity.
Qed.

End Overwrite.

Section BulkUpdate.

Variable L : Library.

Lemma update_list_run (list_id : nat) (req : Request) (st : State) :
  let out := serve (update_list L list_id req) st in
  let tasks_done := form_getlist "done" (form req) in
  let due_to_dates := form_getlist "deadline" (form req) in
  let descriptions := form_getlist "description" (form req) in
  (exists e, response out = Failed e /\ after out = st)
  \/
  (exists l c2,
     list_by_id list_id (db st) = Some l /\
     Forall (fun task => exists t, task_by_text L task (db st) = Some t) tasks_done /\
     for_each due_to_dates
       (overwrite_task L (open_ids list_id (db st)) due_to_dates descriptions)
       (mkCtx (db st)
          (mkStore (users (db st)) (lists (renamed list_id req (db st)))
             (map (mark_done (done_ids L tasks_done)) (tasks (db st))))
          (logged_in st) [])
     = (inr tt, c2) /\
     after out = mkState (pending c2) (logged_in st) /\
     response out =
       rendered (logged_in st) (pending c2)
         (create_tasks_html (list_by_id list_id (pending c2))
            (Some (progress_of (tasks_of list_id (pending c2))))) /\
     flashed out = []).
Proof.
  cbv zeta. unfold serve, update_list.
  replace (match form_getlist "done" (form req) with
           | [] => ret tt
           | _ :: _ => for_each (form_getlist "done" (form req)) (complete_task L)
           end)
    with (for_each (form_getlist "done" (form req)) (complete_task L))
    by (destruct (form_getlist "done" (form req)); reflexivity).
  unfold rendered. run.
  destruct (list_by_id list_id (db st)) as [l|] eqn:Hl.
  2:{ left. destruct (fits list_id); cbn; [|eexists; split; [reflexivity | apply state_eta]].
      destruct (form_get "name" (form req)); cbn;
      eexists; split; try reflexivity; apply state_eta. }
  pose proof (find_id_some ListTODO.id list_id _ l Hl) as [_ Hid].
  cbn. rewrite Hid. unfold renamed, open_ids.
  destruct (form_get "name" (form req)) as [n|]; cbn.
  all: match goal with
       | |- context [for_each ?xs (complete_task L) ?c0] =>
           destruct (for_each xs (complete_task L) c0) as [[e|[]] c1] eqn:H1
       end.
  all: try (left; exists e;
            destruct (quiet_for_each _ _ (quiet_complete_task L) _ _ _ H1)
              as (Hd & Hs & _);
            cbn in *; rewrite Hd, Hs; split; [reflexivity | apply state_eta]).
  all: apply complete_tasks_run in H1; cbn in H1; destruct H1 as [-> Hall].
  all: match goal with
       | |- context [for_each ?xs (overwrite_task L ?a ?b ?d) ?c1] =>
           destruct (for_each xs (overwrite_task L a b d) c1) as [[e|[]] c2] eqn:H2
       end.
  all: try (left; exists e;
            destruct (quiet_for_each _ _ (quiet_overwrite_task L _ _ _) _ _ _ H2)
              as (Hd & Hs & _);
            cbn in *; rewrite Hd, Hs; split; [reflexivity | apply state_eta]).
  all: right; exists l, c2.
  all: destruct (quiet_for_each _ _ (quiet_overwrite_task L _ _ _) _ _ _ H2)
         as (_ & Hs & Hfl); cbn in Hs, Hfl.
  all: cbn; rewrite Hs.
  all: destruct (logged_in st) as [uid|]; cbn;
       [destruct (user_by_id uid (pending c2)); cbn|];
       rewrite ?Hfl; repeat split; try reflexivity; try assumption.
Qed.

End BulkUpdate.

(** ** What a request can do to the store *)

Section Effects.

Variable L : Library.

Lemma dispatch_update_list (i : nat) (req : Request) (st : State) :
  dispatch L (route_update_list i) req st = serve (update_list L i req) st.
Proof. unfold dispatch. destruct (method req); reflexivity. Qed.

Lemma update_list_effect (i : nat) (req : Request) (st : State) :
  effect (route_update_list i) (db st)
    (db (after (serve (update_list L i req) st))).
Proof.
  destruct (update_list_run L i req st) as [(e & _ & ->) | H]; [constructor|].
  destruct H as (l & c2 & _ & _ & H2 & -> & _).
  apply overwrite_tasks_run in H2. destruct H2 as (g & Hg & ->). cbn.
  rewrite map_map. unfold renamed.
  destruct (form_get "name" (form req)) as [n|]; cbn.
  - apply (eff_update _ _ i
             (fun l0 => if ListTODO.id l0 =? i
                        then ListTODO.set_name (Some n) l0 else l0)
             (fun t => g (mark_done (done_ids L (form_getlist "done" (form req))) t)));
      [reflexivity | |].
    + intros l0. destruct (ListTODO.id l0 =? i); reflexivity.
    + intros t. destruct (Hg (mark_done (done_ids L (form_getlist "done" (form req))) t))
        as (H1 & H2 & H3).
      rewrite H1, H2, H3, mark_done_id, mark_done_tasks_list, mark_done_done.
      repeat split. intros ->. reflexivity.
  - rewrite <- (map_id (lists (db st))) at 1.
    apply (eff_update _ _ i (fun l0 => l0)
             (fun t => g (mark_done (done_ids L (form_getlist "done" (form req))) t)));
      [reflexivity | reflexivity |].
    intros t. destruct (Hg (mark_done (done_ids L (form_getlist "done" (form req))) t))
        as (H1 & H2 & H3).
    rewrite H1, H2, H3, mark_done_id, mark_done_tasks_list, mark_done_done.
    repeat split. intros ->. reflexivity.
Qed.

(** Every request changes the store in one of the ways of [effect]. *)
Lemma dispatch_effect (r : Route) (req : Request) (st : State) :
  effect r (db st) (db (after (dispatch L r req st))).
Proof.
  destruct r; try rewrite dispatch_update_list; try apply update_list_effect;
    unfold dispatch; (destruct (allowed _ (method req)); [|cbn; apply eff_none]);
    cbn [view_function]; unfold serve.
  - (* home *)
    unfold home. run. split_session; apply eff_none.
  - (* register *)
    unfold register, validate_on_submit.
    destruct (is_submitted req); [|run; split_session; apply eff_none].
    destruct (failed_fields (RegisterForm L req));
      [|run; split_session; apply eff_none].
    destruct (form_get "password" (form req)) as [pw|]; [|cbn; apply eff_none].
    unfold add_user. run.
    destruct (user_by_email (form_get "email" (form req)) (db st)) eqn:Hu; cbn;
      [split_session; apply eff_none|].
    destruct (form_get "email" (form req)); cbn.
    + rewrite Hu. cbn. apply eff_user; reflexivity.
    + apply eff_user; reflexivity.
  - (* login *)
    unfold login, validate_on_submit.
    destruct (is_submitted req); [|run; split_session; apply eff_none].
    destruct (failed_fields (LoginForm req)); [|run; split_session; apply eff_none].
    run. destruct (user_by_email (form_get "email" (form req)) (db st)) as [u|];
      cbn; [|apply eff_none].
    destruct (User.password u) as [pwhash|]; [|cbn; apply eff_none].
    destruct (form_get "password" (form req)) as [pw|]; [|cbn; apply eff_none].
    destruct (check_password_hash L pwhash pw); cbn; split_session; apply eff_none.
  - (* logout *)
    unfold logout. run. split_session; apply eff_none.
  - (* new list *)
    unfold create_list, login_required, add_list, add_task_row. run.
    destruct (logged_in st) as [uid|]; cbn; [|apply eff_none].
    destruct (user_by_id uid (db st)) as [u|]; cbn; [|apply eff_none].
    destruct (method req); cbn; [split_session; apply eff_none|].
    destruct (form_get "description" (form req)) as [d|]; cbn.
    + split_session;
        apply (eff_list_task _ _
                 (ListTODO.mk (next_id (map ListTODO.id (lists (db st)))) _ _));
        reflexivity.
    + apply eff_list; reflexivity.
  - (* all_task *)
    unfold all_task. run.
    destruct (list_by_id list_id (db st)); cbn; [|destruct (fits list_id); cbn];
      split_session; apply eff_none.
  - (* add_task *)
    unfold add_task, add_task_row. run.
    destruct (list_by_id list_id (db st)) as [l|] eqn:Hl; cbn.
    + destruct (form_get "next_task" (form req)) as [d|]; cbn; [|apply eff_none].
      pose proof (eff_task (route_add_task list_id) (db st) list_id d eq_refl) as He.
      rewrite Hl in He. split_session; exact He.
    + destruct (fits list_id); cbn; [|apply eff_none].
      destruct (form_get "next_task" (form req)) as [d|]; cbn; [|apply eff_none].
      pose proof (eff_task (route_add_task list_id) (db st) list_id d eq_refl) as He.
      rewrite Hl in He. split_session; exact He.
  - (* all_lists *)
    unfold all_lists, login_required. run.
    destruct (logged_in st) as [uid|]; cbn; [|apply eff_none].
    destruct (user_by_id uid (db st)) eqn:Hu; cbn; rewrite ?Hu; cbn;
      apply eff_none.
  - (* delete_list *)
    unfold delete_list. run.
    destruct (list_by_id list_id (db st)) as [l|] eqn:Hl; cbn;
      [|destruct (fits list_id); cbn; apply eff_none].
    pose proof (find_id_some ListTODO.id list_id _ l Hl) as [_ ->].
    apply (eff_delete _ _ _ l); [reflexivity | exact Hl].
Qed.

End Effects.

(** ** Bulk update: the done flags and the completion flag *)

Lemma Forall2_map_right {A} (R : A -> A -> Prop) (g : A -> A) (rows : list A) :
  (forall x, R x (g x)) -> Forall2 R rows (map g rows).
Proof.
  intros HR. induction rows; cbn; constructor; auto.
Qed.

Lemma progress_of_forallb (ts : list Task.t) :
  progress_of ts = forallb Task.done ts.
Proof.
  unfold progress_of.
  assert (H : forall acc, fold_left
            (fun progress task => if negb (Task.done task) then false else progress)
            ts acc = acc && forallb Task.done ts).
  { induction ts as [|t ts IH]; intros acc; cbn.
    - rewrite andb_true_r. reflexivity.
    - rewrite IH. destruct (Task.done t), acc; reflexivity. }
  rewrite H. reflexivity.
Qed.

Lemma in_tasks_of (lid : nat) (s : Store) (t : Task.t) :
  In t (tasks_of lid s) <-> In t (tasks s) /\ Task.tasks_list t = Some lid.
Proof.
  unfold tasks_of. rewrite filter_In.
  destruct (Task.tasks_list t) as [p|]; cbn.
  - rewrite Nat.eqb_eq. split; intros [H1 H2]; split; congruence.
  - split; intros [H1 H2]; discriminate.
Qed.

Lemma done_never_reverts (r : Route) (s s' : Store) :
  effect r s s' ->
  forall t, In t (tasks s) -> Task.done t = true ->
  exists t', In t' (tasks s') /\ Task.id t' = Task.id t /\ Task.done t' = true.
Proof.
  intros He t Hin Hd. destruct He; cbn.
  - eauto.
  - eauto.
  - eauto.
  - exists t. split; [apply in_or_app; left; exact Hin | auto].
  - exists t. split; [apply in_or_app; left; exact Hin | auto].
  - exists (g t). split; [apply in_map; exact Hin|].
    destruct (H1 t) as (Hi & _ & Hdone). auto.
  - exists (if option_eqb Nat.eqb (Task.tasks_list t) (Some i)
            then Task.set_tasks_list None t else t).
    split.
    + unfold update_where.
      apply (in_map (fun r0 => if option_eqb Nat.eqb (Task.tasks_list r0) (Some i)
                               then Task.set_tasks_list None r0 else r0)).
      exact Hin.
    + destruct (option_eqb Nat.eqb (Task.tasks_list t) (Some i)); cbn; auto.
Qed.

Section BulkUpdateFlags.

Variable L : Library.

(** C6, as the code has it.  A bulk update that is served to the end (it
    renders the view) has set the done flag of
    exactly the tasks whose ids were submitted in the field "done" (each of
    which is a task of the store) and leaves the flag of every other task
    as it was; and no request to any route takes a done flag from true back
    to false: a task that is done is still in the store, and done, after
    the request. *)
Theorem bulk_update_marks_exactly_the_submitted_tasks
    (list_id : nat) (req : Request) (st : State) (v : View) :
  let out := dispatch L (route_update_list list_id) req st in
  let submitted := done_ids L (form_getlist "done" (form req)) in
  response out = Render v ->
  Forall2 (fun t t' =>
             Task.id t' = Task.id t /\
             Task.done t' = Task.done t || existsb (Nat.eqb (Task.id t)) submitted)
    (tasks (db st)) (tasks (db (after out)))
  /\ Forall (fun task => exists t, task_by_text L task (db st) = Some t)
       (form_getlist "done" (form req))
  /\ forall (r : Route) (req' : Request) (st' : State) (t : Task.t),
       In t (tasks (db st')) -> Task.done t = true ->
       exists t', In t' (tasks (db (after (dispatch L r req' st'))))
                  /\ Task.id t' = Task.id t /\ Task.done t' = true.
Proof.
  cbv zeta. rewrite dispatch_update_list. intros Hr.
  split; [|split].
  - destruct (update_list_run L list_id req st) as [(e & He & _) | H];
      [rewrite He in Hr; discriminate|].
    destruct H as (l & c2 & _ & _ & H2 & -> & _).
    apply overwrite_tasks_run in H2. destruct H2 as (g & Hg & ->). cbn.
    rewrite map_map. apply Forall2_map_right. intros t.
    destruct (Hg (mark_done (done_ids L (form_getlist "done" (form req))) t))
      as (H1 & H2 & _).
    rewrite H1, H2, mark_done_id, mark_done_done. auto.
  - destruct (update_list_run L list_id req st) as [(e & He & _) | H];
      [rewrite He in Hr; discriminate|].
    destruct H as (l & c2 & _ & Hall & _). exact Hall.
  - intros r req' st' t. apply (done_never_reverts r). apply dispatch_effect.
Qed.


(** C10. On a list without tasks the completion flag of a bulk update is
    true; and such a request is served to the end, with that flag, when it
    submits no "done" and no "deadline" values and its session is absent or
    that of a user of the store. *)
Theorem bulk_update_of_empty_list_is_complete
    (list_id : nat) (req : Request) (st : State) (l : ListTODO.t) :
  let out := dispatch L (route_update_list list_id) req st in
  list_by_id list_id (db st) = Some l ->
  tasks_of list_id (db st) = [] ->
  (forall data completed,
     response out = Render (create_tasks_html data completed) ->
     completed = Some true)
  /\ (session_ok st ->
      form_getlist "done" (form req) = [] ->
      form_getlist "deadline" (form req) = [] ->
      exists data, response out = Render (create_tasks_html data (Some true))).
Proof.
  cbv zeta. rewrite dispatch_update_list. intros Hl Hempty.
  assert (Hflag : forall data completed,
     response (serve (update_list L list_id req) st)
       = Render (create_tasks_html data completed) ->
     completed = Some true).
  { intros data completed Hr.
    destruct (update_list_run L list_id req st) as [(e & He & _) | H];
      [rewrite He in Hr; discriminate|].
    destruct H as (l' & c2 & _ & _ & H2 & _ & Hresp & _).
    rewrite Hresp in Hr. apply rendered_inv in Hr. injection Hr as _ <-.
    apply overwrite_tasks_run in H2. destruct H2 as (g & Hg & ->).
    cbn [pending users lists tasks].
    rewrite map_map, tasks_of_map.
    - replace (tasks_of list_id _) with (tasks_of list_id (db st)) by reflexivity.
      rewrite Hempty. reflexivity.
    - intros t.
      destruct (Hg (mark_done (done_ids L (form_getlist "done" (form req))) t))
        as (_ & _ & H3).
      rewrite H3. apply mark_done_tasks_list. }
  split; [exact Hflag|].
  intros Hok Hd Hdl.
  assert (Hr : exists data c, response (serve (update_list L list_id req) st)
                 = Render (create_tasks_html data c)).
  { unfold serve, update_list. rewrite Hd, Hdl. run. rewrite Hl.
    unfold session_ok in Hok.
    destruct (form_get "name" (form req)); cbn;
      (destruct (logged_in st) as [uid|]; cbn;
       [destruct Hok as [u Hu]; unfold user_by_id in *; rewrite Hu; cbn|]; eauto). }
  destruct Hr as (data & c & Hr). exists data.
  rewrite Hr. rewrite (Hflag _ _ Hr). reflexivity.
Qed.

End BulkUpdateFlags.

(** ** Bulk update: which task a position writes *)

Section Position.

Variable L : Library.
Variables (ids : list nat) (dates descriptions : list string).
Hypothesis ids_distinct : NoDup ids.

(** A deadline value [date] whose first occurrence is at position [i], and
    the task id at that position of [ids]. *)
Variables (i : nat) (date : string) (tid : nat).
Hypothesis first_at : index date dates = Some i.
Hypothesis target : nth_error ids i = Some tid.

Local Abbreviation written_here := (written L descriptions i date tid).

Lemma overwrite_task_establishes (c c' : Ctx) :
  overwrite_task L ids dates descriptions date c = (inr tt, c') ->
  written_here (pending c').
Proof.
  intros H. apply overwrite_task_run in H.
  destruct H as (k & tid' & x & Hk & Htid & Hx & Hdue & [t Ht] & ->).
  rewrite first_at in Hk. injection Hk as <-.
  rewrite target in Htid. injection Htid as <-.
  pose proof (find_id_some Task.id tid _ t Ht) as [_ Hid].
  cbn [pending]. unfold written. rewrite task_by_id_map, Ht by (apply edits_write).
  cbn [option_map]. eexists. split; [reflexivity|].
  unfold write, due_of. rewrite Hid, Nat.eqb_refl.
  destruct (String.eqb date "") eqn:Hd.
  - split; [exact Hx | discriminate].
  - destruct (Hdue eq_refl) as [d Hd']. rewrite Hd'. cbn.
    split; [exact Hx | eauto].
Qed.

Lemma overwrite_task_preserves (date' : string) (c c' : Ctx) :
  overwrite_task L ids dates descriptions date' c = (inr tt, c') ->
  written_here (pending c) -> written_here (pending c').
Proof.
  intros H Hw. destruct (String.eqb_spec date' date) as [-> | Hne].
  - exact (overwrite_task_establishes _ _ H).
  - apply overwrite_task_run in H.
    destruct H as (k & tid' & x & Hk & Htid & _ & _ & _ & ->).
    assert (Hki : k <> i).
    { intros ->. apply index_nth in Hk. pose proof (index_nth _ _ _ first_at).
      congruence. }
    assert (Htt : tid' <> tid).
    { intros ->. apply Hki.
      apply (proj1 (NoDup_nth_error ids) ids_distinct).
      - apply nth_error_Some. congruence.
      - congruence. }
    destruct Hw as (t & Ht & Hdesc & Hdl).
    pose proof (find_id_some Task.id tid _ t Ht) as [_ Hid].
    cbn [pending]. unfold written.
    rewrite task_by_id_map, Ht by (apply edits_write). cbn [option_map].
    exists t. split; [|auto].
    unfold write. rewrite Hid.
    destruct (Nat.eqb_spec tid tid'); [congruence | reflexivity].
Qed.

(** The loop leaves the task written once its deadline value came up. *)
Lemma overwrite_tasks_position (ds : list string) (c c' : Ctx) :
  for_each ds (overwrite_task L ids dates descriptions) c = (inr tt, c') ->
  In date ds \/ written_here (pending c) -> written_here (pending c').
Proof.
  revert c. induction ds as [|d ds IH]; intros c H Hor.
  - cbn in H. injection H as <-. destruct Hor as [[] | Hw]. exact Hw.
  - cbn [for_each] in H. unfold bind in H.
    destruct (overwrite_task L ids dates descriptions d c) as [[e|[]] c1] eqn:H1;
      [discriminate|].
    apply (IH c1 H).
    destruct Hor as [[-> | Hin] | Hw].
    + right. exact (overwrite_task_establishes _ _ H1).
    + left. exact Hin.
    + right. exact (overwrite_task_preserves _ _ _ H1 Hw).
Qed.

End Position.

Section BulkUpdateOrder.

Variable L : Library.

Lemma open_ids_distinct (list_id : nat) (s : Store) :
  NoDup (map Task.id (tasks s)) -> NoDup (open_ids list_id s).
Proof.
  intros H. unfold open_ids, tasks_of. do 2 apply NoDup_map_filter. exact H.
Qed.


End BulkUpdateOrder.

(** ** Tasks and their lists *)

Lemma NoDup_snoc {A} (xs : list A) (x : A) :
  NoDup xs -> ~ In x xs -> NoDup (xs ++ [x]).
Proof.
  intros Hnd Hnotin. induction xs as [|y ys IH]; cbn.
  - constructor; [intros [] | constructor].
  - inversion Hnd as [|? ? Hy Hys]; subst. constructor.
    + intros Hin. apply in_app_or in Hin. destruct Hin as [Hin | [-> | []]].
      * exact (Hy Hin).
      * apply Hnotin. left. reflexivity.
    + apply IH; [exact Hys | intros Hin; apply Hnotin; right; exact Hin].
Qed.

Lemma count_one_iff (ids : list nat) (p : nat) :
  NoDup ids -> (count_occ Nat.eq_dec ids p = 1 <-> In p ids).
Proof.
  intros Hnd. rewrite (count_occ_In Nat.eq_dec).
  pose proof (proj1 (NoDup_count_occ Nat.eq_dec ids) Hnd p). lia.
Qed.

Lemma ids_after_delete (i p : nat) (ls : list ListTODO.t) :
  p <> i ->
  In p (map ListTODO.id ls) ->
  In p (map ListTODO.id (filter (fun l => negb (ListTODO.id l =? i)) ls)).
Proof.
  intros Hne Hin. apply in_map_iff in Hin. destruct Hin as (l & <- & Hin).
  apply in_map. apply filter_In. split; [exact Hin|].
  apply negb_true_iff. apply Nat.eqb_neq. exact Hne.
Qed.

Lemma keys_preserved (r : Route) (s s' : Store) :
  effect r s s' -> keys_ok s -> keys_ok s'.
Proof.
  intros He (Hu & Hl & Ht). destruct He; unfold keys_ok; cbn.
  - auto.
  - repeat split; auto. rewrite map_app. cbn. apply NoDup_snoc; [exact Hu|].
    rewrite H0. apply next_id_fresh.
  - repeat split; auto. rewrite map_app. cbn. apply NoDup_snoc; [exact Hl|].
    rewrite H0. apply next_id_fresh.
  - repeat split; auto.
    + rewrite map_app. cbn. apply NoDup_snoc; [exact Hl|].
      rewrite H0. apply next_id_fresh.
    + rewrite map_app. cbn. apply NoDup_snoc; [exact Ht | apply next_id_fresh].
  - repeat split; auto.
    rewrite map_app. cbn. apply NoDup_snoc; [exact Ht | apply next_id_fresh].
  - repeat split; auto.
    + rewrite map_map. rewrite (map_ext _ ListTODO.id) by exact H0. exact Hl.
    + rewrite map_map. rewrite (map_ext _ Task.id); [exact Ht|].
      intros t. apply H1.
  - repeat split; auto.
    + apply NoDup_map_filter. exact Hl.
    + unfold update_where. rewrite map_map. rewrite (map_ext _ Task.id); [exact Ht|].
      intros t. destruct (option_eqb _ _ _); reflexivity.
Qed.

(** With primary keys, belonging to a list is having the id of a list. *)
Lemma belongs_iff (s : Store) (t : Task.t) :
  NoDup (map ListTODO.id (lists s)) ->
  (belongs_to_one_list s t <->
   exists p, Task.tasks_list t = Some p /\ In p (map ListTODO.id (lists s))).
Proof.
  intros Hnd. unfold belongs_to_one_list.
  split; intros (p & Hp & H); exists p; (split; [exact Hp|]);
    apply (count_one_iff _ p Hnd); exact H.
Qed.

Lemma parent_ok_preserved (r : Route) (s s' : Store) :
  effect r s s' -> keys_ok s ->
  Forall (parent_ok s) (tasks s) -> Forall (parent_ok s') (tasks s').
Proof.
  intros He Hk Hall.
  pose proof (keys_preserved r s s' He Hk) as (_ & Hl' & _).
  destruct Hk as (_ & Hl & _).
  assert (Hstep : forall t, parent_ok s t ->
            (forall p, In p (map ListTODO.id (lists s)) ->
                       In p (map ListTODO.id (lists s'))) ->
            parent_ok s' t).
  { intros t [Hn | Hb] Hsub; [left; exact Hn | right].
    apply (belongs_iff s t Hl) in Hb. apply (belongs_iff s' t Hl').
    destruct Hb as (p & Hp & Hin). exists p. auto. }
  destruct He; cbn in *.
  - exact Hall.
  - exact Hall.
  - revert Hall. apply Forall_impl. intros t Ht. apply Hstep; [exact Ht|].
    intros p Hp. cbn. rewrite map_app. apply in_or_app. left. exact Hp.
  - apply Forall_app. split.
    + revert Hall. apply Forall_impl. intros t Ht. apply Hstep; [exact Ht|].
      intros p Hp. cbn. rewrite map_app. apply in_or_app. left. exact Hp.
    + constructor; [|constructor]. right.
      apply belongs_iff; [exact Hl'|]. eexists. split; [reflexivity|].
      cbn. rewrite map_app. apply in_or_app. right. left. reflexivity.
  - apply Forall_app. split; [exact Hall|].
    constructor; [|constructor]. unfold parent_ok. cbn.
    destruct (list_by_id i s) as [l|] eqn:Hli; cbn; [right | left; reflexivity].
    apply belongs_iff; [exact Hl|]. eexists. split; [reflexivity|].
    cbn. pose proof (find_id_some _ _ _ _ Hli) as [Hin _].
    apply in_map. exact Hin.
  - apply Forall_map. revert Hall. apply Forall_impl. intros t [Hn | Hb].
    + left. destruct (H1 t) as (_ & -> & _). exact Hn.
    + right. apply (belongs_iff s t Hl) in Hb. apply belongs_iff; [exact Hl'|].
      destruct Hb as (p & Hp & Hin). exists p.
      destruct (H1 t) as (_ & -> & _). split; [exact Hp|].
      cbn. rewrite map_map. rewrite (map_ext _ ListTODO.id) by exact H0. exact Hin.
  - unfold update_where. apply Forall_map. revert Hall. apply Forall_impl.
    intros t Ht.
    destruct (option_eqb Nat.eqb (Task.tasks_list t) (Some i)) eqn:Hti;
      [left; reflexivity|].
    destruct Ht as [Hn | Hb]; [left; exact Hn | right].
    apply (belongs_iff s t Hl) in Hb. apply belongs_iff; [exact Hl'|].
    destruct Hb as (p & Hp & Hin). exists p. split; [exact Hp|].
    cbn. apply ids_after_delete; [|exact Hin].
    intros ->. rewrite Hp in Hti. cbn in Hti. rewrite Nat.eqb_refl in Hti.
    discriminate.
Qed.

Lemma every_task_has_a_list_preserved (r : Route) (s s' : Store) :
  effect r s s' -> keys_ok s ->
  (forall i, r <> route_delete_list i) ->
  (forall i, r = route_add_task i -> list_by_id i s <> None) ->
  every_task_has_a_list s -> every_task_has_a_list s'.
Proof.
  unfold every_task_has_a_list. intros He Hk Hnd Hadd Hall.
  pose proof (keys_preserved r s s' He Hk) as (_ & Hl' & _).
  destruct Hk as (_ & Hl & _).
  assert (Hstep : forall t, belongs_to_one_list s t ->
            (forall p, In p (map ListTODO.id (lists s)) ->
                       In p (map ListTODO.id (lists s'))) ->
            belongs_to_one_list s' t).
  { intros t Hb Hsub.
    apply (belongs_iff s t Hl) in Hb. apply (belongs_iff s' t Hl').
    destruct Hb as (p & Hp & Hin). exists p. auto. }
  destruct He; cbn in *.
  - exact Hall.
  - exact Hall.
  - revert Hall. apply Forall_impl. intros t Ht. apply Hstep; [exact Ht|].
    intros p Hp. cbn. rewrite map_app. apply in_or_app. left. exact Hp.
  - apply Forall_app. split.
    + revert Hall. apply Forall_impl. intros t Ht. apply Hstep; [exact Ht|].
      intros p Hp. cbn. rewrite map_app. apply in_or_app. left. exact Hp.
    + constructor; [|constructor].
      apply belongs_iff; [exact Hl'|]. eexists. split; [reflexivity|].
      cbn. rewrite map_app. apply in_or_app. right. left. reflexivity.
  - apply Forall_app. split; [exact Hall|].
    constructor; [|constructor].
    pose proof (Hadd i H) as Hex.
    destruct (list_by_id i s) as [l|] eqn:Hli; [|exfalso; exact (Hex eq_refl)].
    apply belongs_iff; [exact Hl|]. eexists. split; [reflexivity|].
    cbn. pose proof (find_id_some _ _ _ _ Hli) as [Hin _].
    apply in_map. exact Hin.
  - apply Forall_map. revert Hall. apply Forall_impl. intros t Hb.
    apply (belongs_iff s t Hl) in Hb. apply belongs_iff; [exact Hl'|].
    destruct Hb as (p & Hp & Hin). exists p.
    destruct (H1 t) as (_ & -> & _). split; [exact Hp|].
    cbn. rewrite map_map. rewrite (map_ext _ ListTODO.id) by exact H0. exact Hin.
  - exfalso. exact (Hnd i H).
Qed.

Section TasksAndLists.

Variable L : Library.

Lemma delete_list_run (i : nat) (req : Request) (st : State) (l : ListTODO.t) :
  method req = GET ->
  list_by_id i (db st) = Some l ->
  db (after (dispatch L (route_delete_list i) req st)) = delete_list_row i (db st).
Proof.
  intros Hm Hl. unfold dispatch. rewrite Hm. cbn [allowed view_function].
  unfold serve, delete_list. run. rewrite Hl. cbn.
  pose proof (find_id_some ListTODO.id i _ l Hl) as [_ ->]. reflexivity.
Qed.

(** C7, as the code has it.  In a store with primary keys, after a request
    to any route: the keys are still primary keys; every task still has a
    foreign key that is null or the id of exactly one list, if that held
    before; and if every task belonged to exactly one list before, it does
    after every request but a deletion (and an "add task" for a list id
    that is not in the store).  The deletion of a list removes the row of
    the list alone: its tasks stay in the store, with a null foreign key. *)
Theorem tasks_and_lists_after_a_request (r : Route) (req : Request) (st : State) :
  let s := db st in
  let s' := db (after (dispatch L r req st)) in
  keys_ok s ->
  keys_ok s' /\
  (Forall (parent_ok s) (tasks s) -> Forall (parent_ok s') (tasks s')) /\
  (every_task_has_a_list s ->
   match r with
   | route_delete_list _ => True
   | route_add_task i => list_by_id i s <> None -> every_task_has_a_list s'
   | _ => every_task_has_a_list s'
   end) /\
  (forall i l, r = route_delete_list i -> method req = GET ->
     list_by_id i s = Some l ->
     lists s' = filter (fun l0 => negb (ListTODO.id l0 =? i)) (lists s) /\
     tasks s' = map (fun t => if option_eqb Nat.eqb (Task.tasks_list t) (Some i)
                              then Task.set_tasks_list None t else t) (tasks s)).
Proof.
  cbv zeta. intros Hk.
  pose proof (dispatch_effect L r req st) as He.
  split; [exact (keys_preserved _ _ _ He Hk)|].
  split; [exact (parent_ok_preserved _ _ _ He Hk)|].
  split.
  - intros Hall.
    destruct r; try exact I;
      try (apply (every_task_has_a_list_preserved _ _ _ He Hk);
           [discriminate | discriminate | exact Hall]).
    intros Hex. apply (every_task_has_a_list_preserved _ _ _ He Hk);
      [discriminate | | exact Hall].
    intros i Hi. injection Hi as <-. exact Hex.
  - intros i l -> Hm Hl. rewrite (delete_list_run i req st l Hm Hl).
    split; reflexivity.
Qed.

End TasksAndLists.

Lemma sample_keys_ok : keys_ok Sample.two_tasks.
Proof.
  unfold keys_ok. cbn. repeat split; repeat constructor; cbn; intuition discriminate.
Defined.

Lemma tasks_and_lists_after_a_request_witness :
  let s' := db (after (dispatch Sample.library (route_delete_list 1) Sample.get
                         (mkState Sample.two_tasks None))) in
  keys_ok s' /\
  lists s' = [] /\
  tasks s' = [Task.mk 1 false "Buy milk" None None;
              Task.mk 2 false "Call Bob" None None].
Proof.
  pose proof (tasks_and_lists_after_a_request Sample.library (route_delete_list 1)
                Sample.get (mkState Sample.two_tasks None) sample_keys_ok)
    as (Hk & _ & _ & Hd).
  split; [exact Hk|].
  exact (Hd 1 (ListTODO.mk 1 (Some "My to-do list 2026/11/03") (Some 1))
           eq_refl eq_refl eq_refl).
Defined.

(** C7, as the claim has it, fails: every task of the sample store belongs
    to exactly one list; after the deletion of that list both tasks are
    still in the store and belong to no list. *)
Lemma delete_list_leaves_tasks_without_a_list :
  let st := mkState Sample.two_tasks None in
  let s' := db (after (dispatch Sample.library (route_delete_list 1) Sample.get st)) in
  every_task_has_a_list (db st) /\
  tasks s' = [Task.mk 1 false "Buy milk" None None;
              Task.mk 2 false "Call Bob" None None] /\
  lists s' = [] /\
  ~ every_task_has_a_list s'.
Proof.
  cbv zeta. split; [|split; [reflexivity | split; [reflexivity|]]].
  - repeat constructor; exists 1; split; reflexivity.
  - intros H. inversion H as [|? ? (p & Hp & _) _]. discriminate.
Qed.

(** ** The bulk update on the sample store *)

Lemma bulk_update_marks_exactly_the_submitted_tasks_witness :
  let out := dispatch Sample.library (route_update_list 1) Sample.bulk_update
               (mkState Sample.two_tasks None) in
  Forall2 (fun t t' =>
             Task.id t' = Task.id t /\
             Task.done t' = Task.done t || existsb (Nat.eqb (Task.id t)) [1])
    (tasks Sample.two_tasks) (tasks (db (after out))).
Proof.
  exact (proj1 (bulk_update_marks_exactly_the_submitted_tasks Sample.library 1
                  Sample.bulk_update (mkState Sample.two_tasks None) _ eq_refl)).
Defined.


Lemma bulk_update_of_empty_list_is_complete_witness :
  exists data,
    response (dispatch Sample.library (route_update_list 1) (Sample.post [])
                (mkState Sample.no_tasks None))
    = Render (create_tasks_html data (Some true)).
Proof.
  exact (proj2 (bulk_update_of_empty_list_is_complete Sample.library 1
                  (Sample.post []) (mkState Sample.no_tasks None)
                  (ListTODO.mk 1 (Some "My to-do list 2026/11/03") (Some 1))
                  eq_refl eq_refl) I eq_refl eq_refl).
Defined.


(** C6, as the claim has it, fails: a bulk update that submits the id of
    task 1 in "done" and a deadline that is not a date ends in the
    [ValueError] of [strptime], before the commit; task 1 is not done
    afterwards. *)
Lemma bulk_update_with_a_bad_deadline_marks_nothing :
  let req := Sample.post [("done", "1");
                          ("deadline", "tomorrow"); ("description", "Buy milk")] in
  let st := mkState Sample.two_tasks None in
  let out := dispatch Sample.library (route_update_list 1) req st in
  done_ids Sample.library (form_getlist "done" (form req)) = [1] /\
  response out = Failed ValueError /\
  task_by_id 1 (db (after out)) = Some (Task.mk 1 false "Buy milk" (Some 1) None) /\
  db (after out) = Sample.two_tasks.
Proof.
  cbv zeta. repeat split; reflexivity.
Qed.


(** ** The stores the program reaches *)

(** Ids stay primary keys, and foreign keys of tasks stay null or the id of
    exactly one list, in every state the program reaches. *)
Lemma reachable_keys_ok (L : Library) (st : State) :
  reachable L st -> keys_ok (db st) /\ Forall (parent_ok (db st)) (tasks (db st)).
Proof.
  induction 1 as [who | st r req _ [IHk IHp]].
  - cbn. split; [|constructor]. unfold keys_ok. cbn. repeat split; constructor.
  - pose proof (dispatch_effect L r req st) as He. split.
    + exact (keys_preserved _ _ _ He IHk).
    + exact (parent_ok_preserved _ _ _ He IHk IHp).
Qed.

(** ** Sessions of users who are gone, wide characters, large ids *)

(** Rendering a view loads the user of the session: with the session of a
    user who is not in the store, "add task" answers 404 after it has
    committed the task. *)
Lemma add_task_with_a_session_of_no_user :
  let st := mkState Sample.two_tasks (Some 9) in
  let out := dispatch Sample.library (route_add_task 1)
               (Sample.post [("next_task", "Water plants")]) st in
  response out = Failed NotFound /\ status_code (response out) = 404 /\
  tasks (db (after out))
  = (tasks Sample.two_tasks ++ [Task.mk 3 false "Water plants" (Some 1) None])%list.
Proof. cbv zeta. repeat split; reflexivity. Qed.

(** So does the page of a list. *)
Lemma all_task_with_a_session_of_no_user :
  response (dispatch Sample.library (route_all_task 1) Sample.get
              (mkState Sample.two_tasks (Some 9)))
  = Failed NotFound.
Proof. reflexivity. Qed.

(** A logout with such a session answers 404 and keeps the session. *)
Lemma logout_with_a_session_of_no_user :
  let st := mkState Sample.two_tasks (Some 9) in
  let out := dispatch Sample.library route_logout Sample.get st in
  response out = Failed NotFound /\ after out = st.
Proof. cbv zeta. split; reflexivity. Qed.

(** A password of seven characters in eight bytes is too short. *)
Lemma password_of_seven_characters :
  let pw := ("passwd" ++ Sample.e_acute)%string in
  let out := dispatch Sample.library route_register
               (Sample.post [("name", "Bob"); ("email", "bob@example.org");
                             ("password", pw)])
               (mkState Sample.two_tasks None) in
  String.length pw = 8 /\ characters pw = 7 /\
  response out = Render (register_html ["password"]) /\
  db (after out) = Sample.two_tasks.
Proof. cbv zeta. repeat split; reflexivity. Qed.

(** A name that is a no-break space is no name. *)
Lemma name_of_a_no_break_space :
  let out := dispatch Sample.library route_register
               (Sample.post [("name", Sample.no_break_space); ("email", "bob@example.org");
                             ("password", "12345678")])
               (mkState Sample.two_tasks None) in
  DataRequired (Some Sample.no_break_space) = false /\
  response out = Render (register_html ["name"]) /\
  db (after out) = Sample.two_tasks.
Proof. cbv zeta. repeat split; reflexivity. Qed.

(** A list id that no row has and that SQLite cannot hold ends the four
    handlers that fetch the list in [OverflowError], and nothing changes. *)
Lemma list_id_out_of_range (L : Library) (i : nat) (req : Request) (st : State) :
  list_by_id i (db st) = None ->
  fits i = false ->
  serve (all_task i req) st = mkOutcome st (Failed OverflowError) [] /\
  serve (add_task i req) st = mkOutcome st (Failed OverflowError) [] /\
  serve (update_list L i req) st = mkOutcome st (Failed OverflowError) [] /\
  serve (delete_list i req) st = mkOutcome st (Failed OverflowError) [].
Proof.
  intros Hnone Hfits.
  unfold serve, all_task, add_task, update_list, delete_list. run.
  rewrite Hnone, Hfits. cbn. rewrite state_eta. repeat split; reflexivity.
Qed.

(** * Further properties of the handlers *)

(** ** Registration and login *)

Lemma find_snoc {A} (p : A -> bool) (rows : list A) (r : A) :
  find p rows = None -> find p (rows ++ [r]) = if p r then Some r else None.
Proof.
  induction rows as [|x rows IH]; cbn; intros H; [reflexivity|].
  destruct (p x); [discriminate | exact (IH H)].
Qed.

Lemma find_app_found {A} (p : A -> bool) (rows more : list A) (r : A) :
  find p rows = Some r -> find p (rows ++ more) = Some r.
Proof.
  induction rows as [|x rows IH]; cbn; intros H; [discriminate|].
  destruct (p x); [exact H | exact (IH H)].
Qed.

Section Accounts.

Variable L : Library.

(** The run of [register]: the store is left alone, or the form validated,
    the email was free and the new user is the last row. *)
Lemma register_run (req : Request) (st : State) :
  let out := dispatch L route_register req st in
  (db (after out) = db st /\ logged_in (after out) = logged_in st /\
   (fst (validate_on_submit req (RegisterForm L req)) = true ->
    user_by_email (form_get "email" (form req)) (db st) <> None))
  \/
  (fst (validate_on_submit req (RegisterForm L req)) = true /\
   user_by_email (form_get "email" (form req)) (db st) = None /\
   exists pw, form_get "password" (form req) = Some pw /\
     let u := User.mk (next_id (map User.id (users (db st))))
                (form_get "email" (form req))
                (Some (generate_password_hash L pw (salt req)))
                (form_get "name" (form req)) in
     after out = mkState (insert_user u (db st)) (Some (User.id u)) /\
     response out = Redirect home_ep /\ flashed out = []).
Proof.
  cbv zeta. unfold dispatch.
  replace (allowed route_register (method req)) with true
    by (destruct (method req); reflexivity).
  cbn [view_function]. unfold serve, register.
  destruct (validate_on_submit req (RegisterForm L req)) as [valid errs] eqn:Hv.
  destruct valid; [|left; run; split_session; repeat split; discriminate].
  pose proof (register_valid_fields L req) as Hfields. rewrite Hv in Hfields.
  destruct (Hfields eq_refl) as (_ & _ & _ & n & e & pw & Hn & He & Hp & _).
  rewrite Hp. unfold add_user. run.
  destruct (user_by_email (form_get "email" (form req)) (db st)) as [u|] eqn:Hu; cbn.
  - left. split_session; repeat split; discriminate.
  - right. split; [reflexivity|]. split; [reflexivity|].
    exists pw. split; [reflexivity|].
    rewrite He in *. cbn. rewrite Hu. cbn. repeat split.
Qed.


(** X18. A registration whose password has fewer than 8 characters (code
    points of its UTF-8 text), from a client whose session is absent or that
    of a user of the store, is not accepted: nothing is stored, the session
    stays as it is, nothing is flashed, and the form is rendered again with
    an error on the password field. *)
Theorem register_rejects_a_short_password (req : Request) (st : State) (pw : string) :
  let out := dispatch L route_register req st in
  session_ok st ->
  method req = POST ->
  form_get "password" (form req) = Some pw ->
  characters pw < 8 ->
  after out = st /\ flashed out = [] /\
  exists form_errors,
    response out = Render (register_html form_errors) /\ In "password" form_errors.
Proof.
  cbv zeta. intros Hok Hm Hp Hlen. destruct st as [s who].
  unfold dispatch. rewrite Hm. cbn [allowed view_function].
  unfold serve, register, validate_on_submit, is_submitted. rewrite Hm.
  assert (Hin : In "password" (failed_fields (RegisterForm L req))).
  { unfold failed_fields, RegisterForm. rewrite Hp.
    replace (Length_min 8 (Some pw)) with false
      by (symmetry; unfold Length_min; apply Nat.leb_gt; exact Hlen).
    rewrite andb_false_r. cbn.
    destruct (csrf_ok req), (DataRequired (form_get "name" (form req))),
      (Email_validator L (form_get "email" (form req))
       && DataRequired (form_get "email" (form req))); cbn; auto. }
  destruct (failed_fields (RegisterForm L req)) as [|f fs]; [contradiction|].
  run. with_session Hok;
    (split; [reflexivity|]; split; [reflexivity|];
     exists (f :: fs); split; [reflexivity | exact Hin]).
Qed.

End Accounts.

Section Sessions.

Variable L : Library.

(** The run of [login]: the store is never written; the session is left
    alone or becomes that of the user with the submitted email. *)
Lemma login_run (req : Request) (st : State) :
  let out := dispatch L route_login req st in
  db (after out) = db st /\
  (logged_in (after out) = logged_in st \/
   exists u, user_by_email (form_get "email" (form req)) (db st) = Some u /\
             logged_in (after out) = Some (User.id u)).
Proof.
  cbv zeta. unfold dispatch.
  replace (allowed route_login (method req)) with true
    by (destruct (method req); reflexivity).
  cbn [view_function]. unfold serve, login.
  destruct (validate_on_submit req (LoginForm req)) as [valid errs].
  destruct valid; [|run; split_session; auto]. run.
  destruct (user_by_email (form_get "email" (form req)) (db st)) as [u|]; cbn;
    [|split_session; auto].
  destruct (User.password u) as [h|]; [|cbn; auto].
  destruct (form_get "password" (form req)) as [pw|]; [|cbn; auto].
  destruct (check_password_hash L h pw); cbn; [|split_session; auto].
  split; [reflexivity|]. right. exists u. auto.
Qed.

Lemma login_accepts (req : Request) (st : State) (u : User.t) (e h pw : string) :
  method req = POST -> csrf_ok req = true ->
  form_get "email" (form req) = Some e -> DataRequired (Some e) = true ->
  form_get "password" (form req) = Some pw -> DataRequired (Some pw) = true ->
  user_by_email (Some e) (db st) = Some u ->
  User.password u = Some h ->
  check_password_hash L h pw = true ->
  dispatch L route_login req st
  = mkOutcome (mkState (db st) (Some (User.id u))) (Redirect home_ep) [].
Proof.
  intros Hm Hc He Hde Hp Hdp Hu Hh Hck.
  unfold dispatch. rewrite Hm. cbn [allowed view_function].
  unfold serve, login, validate_on_submit, is_submitted, LoginForm, failed_fields.
  rewrite Hm, Hc, He, Hp, Hde, Hdp. run. rewrite Hu. cbn. rewrite Hh, Hck. reflexivity.
Qed.

(** X2. Register, then log in: after a registration that created a user, a
    login that submits the same email and password is accepted, whoever
    holds the session, provided the library's check accepts the hash it
    generated for that password: the session becomes that of the new user,
    the answer is the redirect home, the store is not written. *)
Theorem register_then_login (req req' : Request) (st : State) (who : option nat) :
  let st1 := after (dispatch L route_register req st) in
  let out := dispatch L route_login req' (mkState (db st1) who) in
  fst (validate_on_submit req (RegisterForm L req)) = true ->
  user_by_email (form_get "email" (form req)) (db st) = None ->
  method req' = POST -> csrf_ok req' = true ->
  form_get "email" (form req') = form_get "email" (form req) ->
  form_get "password" (form req') = form_get "password" (form req) ->
  (forall pw, form_get "password" (form req) = Some pw ->
     check_password_hash L (generate_password_hash L pw (salt req)) pw = true) ->
  logged_in (after out) = logged_in st1 /\
  logged_in (after out) = Some (next_id (map User.id (users (db st)))) /\
  response out = Redirect home_ep /\
  db (after out) = db st1.
Proof.
  cbv zeta. intros Hv Hfree Hm Hc He' Hp' Hlib.
  destruct (register_valid_fields L req Hv)
    as (_ & _ & _ & n & e & pw & Hn & He & Hp & _ & Hde & _ & Hdp & _).
  destruct (register_run L req st) as [(_ & _ & H) | (_ & _ & pw' & Hpw' & Hafter & _)];
    [exfalso; exact (H Hv Hfree)|].
  rewrite Hp in Hpw'. injection Hpw' as <-. rewrite Hafter. cbn [db logged_in].
  rewrite He in He', Hfree. rewrite Hp in Hp'.
  rewrite (login_accepts req' _
             (User.mk (next_id (map User.id (users (db st)))) (form_get "email" (form req))
                (Some (generate_password_hash L pw (salt req)))
                (form_get "name" (form req)))
             e (generate_password_hash L pw (salt req)) pw Hm Hc He' Hde Hp' Hdp).
  - cbn. auto.
  - unfold user_by_email, insert_user. cbn [users db].
    rewrite (find_snoc _ _ _ Hfree). cbn. rewrite He. cbn.
    rewrite String.eqb_refl. reflexivity.
  - reflexivity.
  - apply Hlib. exact Hp.
Qed.

(** X4. Without a login session the routes behind [login_required] answer
    401 and change nothing; with a session whose user is not in the store,
    loading the user answers 404. *)
Theorem login_required_refuses (r : Route) (req : Request) (st : State) :
  let out := dispatch L r req st in
  r = route_new_list \/ r = route_all_lists ->
  allowed r (method req) = true ->
  (logged_in st = None ->
   response out = Failed Unauthorized /\ status_code (response out) = 401 /\
   after out = st)
  /\ (forall uid, logged_in st = Some uid -> user_by_id uid (db st) = None ->
      response out = Failed NotFound /\ status_code (response out) = 404 /\
      after out = st).
Proof.
  cbv zeta. intros Hr Ha. unfold dispatch. rewrite Ha.
  destruct Hr as [-> | ->]; cbn [view_function];
    unfold serve, create_list, all_lists, login_required, current_user, load_user; run.
  all: split; [intros Hs; rewrite Hs; cbn; repeat split; rewrite <- Hs; apply state_eta|].
  all: intros uid Hs Hu; rewrite Hs; cbn; rewrite Hu; cbn; repeat split;
       rewrite <- Hs; apply state_eta.
Qed.

(** X19. After the logout of a client whose session is absent or that of a
    user of the store, the session is gone and the store is as before; the
    list overview then answers 401. *)
Theorem logout_ends_the_session (req req' : Request) (st : State) :
  let st1 := after (dispatch L route_logout req st) in
  session_ok st ->
  method req = GET -> method req' = GET ->
  st1 = mkState (db st) None /\
  response (dispatch L route_logout req st) = Render (index_html None) /\
  response (dispatch L route_all_lists req' st1) = Failed Unauthorized.
Proof.
  cbv zeta. intros Hok Hm Hm'. destruct st as [s who].
  unfold dispatch. rewrite Hm, Hm'.
  cbn [allowed view_function]. unfold serve, logout. run.
  with_session Hok; auto.
Qed.

End Sessions.

(** ** What no request does *)

Lemma extends_refl {A} (xs : list A) : extends xs xs.
Proof. exists []. rewrite app_nil_r. reflexivity. Qed.

Lemma extends_snoc {A} (xs : list A) (x : A) : extends xs (xs ++ [x]).
Proof. exists [x]. reflexivity. Qed.

Lemma users_of_effect (r : Route) (s s' : Store) :
  effect r s s' -> extends (users s) (users s').
Proof.
  intros He. destruct He; cbn; try apply extends_refl. apply extends_snoc.
Qed.

Lemma users_unchanged (r : Route) (s s' : Store) :
  effect r s s' -> r <> route_register -> users s' = users s.
Proof.
  intros He Hr. destruct He; cbn; try reflexivity. contradiction.
Qed.

Lemma task_ids_of_effect (r : Route) (s s' : Store) :
  effect r s s' -> extends (map Task.id (tasks s)) (map Task.id (tasks s')).
Proof.
  intros He. destruct He; cbn; try apply extends_refl.
  - rewrite map_app. apply extends_snoc.
  - rewrite map_app. apply extends_snoc.
  - rewrite map_map. rewrite (map_ext (fun x => Task.id (g x)) Task.id);
      [apply extends_refl|].
    intros t. apply H1.
  - unfold update_where. rewrite map_map.
    rewrite (map_ext (fun x => Task.id (if option_eqb Nat.eqb (Task.tasks_list x) (Some i)
                                        then Task.set_tasks_list None x else x))
               Task.id); [apply extends_refl|].
    intros t. destruct (option_eqb _ _ _); reflexivity.
Qed.

Lemma tasks_of_effect (r : Route) (s s' : Store) :
  effect r s s' ->
  (forall i, r <> route_update_list i) -> (forall i, r <> route_delete_list i) ->
  extends (tasks s) (tasks s').
Proof.
  intros He Hu Hd. destruct He; cbn; try apply extends_refl; try apply extends_snoc.
  - exfalso. exact (Hu i H).
  - exfalso. exact (Hd i H).
Qed.

Lemma user_by_email_free (e : string) (s : Store) :
  user_by_email (Some e) s = None -> ~ In e (emails s).
Proof.
  unfold user_by_email, emails. intros Hnone Hin.
  apply in_flat_map in Hin. destruct Hin as (u & Hu & He).
  apply (find_none _ _ Hnone) in Hu.
  destruct (User.email u) as [e'|]; [|contradiction].
  destruct He as [-> | []]. cbn in Hu. rewrite String.eqb_refl in Hu. discriminate.
Qed.

Section Frames.

Variable L : Library.

(** X8. No request changes or removes a user row: the users after a request
    are the users before it, with at most new rows at the end. *)
Theorem users_are_never_changed (r : Route) (req : Request) (st : State) :
  extends (users (db st)) (users (db (after (dispatch L r req st)))) /\
  (r <> route_register -> users (db (after (dispatch L r req st))) = users (db st)).
Proof.
  split.
  - apply (users_of_effect r). apply dispatch_effect.
  - apply (users_unchanged r). apply dispatch_effect.
Qed.

(** X7. No request removes a task row or changes the id of one: the task
    ids after a request are those before it, with at most new ones at the
    end; and only the bulk update and the deletion of a list write to task
    rows that exist. *)
Theorem tasks_are_never_removed (r : Route) (req : Request) (st : State) :
  extends (map Task.id (tasks (db st)))
    (map Task.id (tasks (db (after (dispatch L r req st)))))
  /\ ((forall i, r <> route_update_list i) -> (forall i, r <> route_delete_list i) ->
      extends (tasks (db st)) (tasks (db (after (dispatch L r req st))))).
Proof.
  split.
  - apply (task_ids_of_effect r). apply dispatch_effect.
  - apply (tasks_of_effect r). apply dispatch_effect.
Qed.

(** X3. The emails of the users stay pairwise different: a request to any
    route keeps [User.email] unique. *)
Theorem emails_stay_unique (r : Route) (req : Request) (st : State) :
  emails_unique (db st) -> emails_unique (db (after (dispatch L r req st))).
Proof.
  unfold emails_unique, emails. intros Hu.
  assert (Hother : r <> route_register ->
            NoDup (emails (db (after (dispatch L r req st))))).
  { intros Hr. unfold emails.
    rewrite (users_unchanged r _ _ (dispatch_effect L r req st) Hr). exact Hu. }
  destruct r; try (apply Hother; discriminate). clear Hother.
  destruct (register_run L req st) as [(Hdb & _) | (Hv & Hfree & pw & _ & Hafter & _)].
  - rewrite Hdb. exact Hu.
  - rewrite Hafter. cbn [db insert_user users].
    destruct (register_valid_fields L req Hv) as (_ & _ & _ & n & e & _ & _ & He & _).
    rewrite He in *. rewrite flat_map_app. cbn.
    apply NoDup_snoc; [exact Hu|]. apply user_by_email_free. exact Hfree.
Qed.

(** The session after a request: as before, none, or that of a user of the
    store. *)
Lemma dispatch_session (r : Route) (req : Request) (st : State) :
  let out := dispatch L r req st in
  logged_in (after out) = logged_in st \/ logged_in (after out) = None \/
  exists u, In u (users (db (after out))) /\ logged_in (after out) = Some (User.id u).
Proof.
  cbv zeta. destruct r.
  - left. unfold dispatch. destruct (allowed _ _); [|reflexivity].
    cbn [view_function]. unfold serve, home. run. split_request; reflexivity.
  - destruct (register_run L req st) as [(_ & Hs & _) | (_ & _ & pw & _ & Hafter & _)];
      [left; exact Hs|].
    right. right. rewrite Hafter. cbn [after db logged_in insert_user users].
    eexists. split; [|reflexivity].
    apply in_or_app. right. left. reflexivity.
  - destruct (login_run L req st) as (Hdb & [Hs | (u & Hu & Hs)]); [left; exact Hs|].
    right. right. exists u. split; [|exact Hs]. rewrite Hdb.
    apply find_some in Hu. tauto.
  - unfold dispatch. destruct (allowed _ _); [|left; reflexivity].
    cbn [view_function]. unfold serve, logout. run.
    destruct (logged_in st) as [uid|]; cbn; [|auto].
    destruct (user_by_id uid (db st)); cbn; auto.
  - left. unfold dispatch. destruct (allowed _ _); [|reflexivity].
    cbn [view_function].
    unfold serve, create_list, login_required, add_list, add_task_row. run.
    split_request; reflexivity.
  - left. unfold dispatch. destruct (allowed _ _); [|reflexivity].
    cbn [view_function]. unfold serve, all_task. run. split_request; reflexivity.
  - left. unfold dispatch. destruct (allowed _ _); [|reflexivity].
    cbn [view_function]. unfold serve, add_task, add_task_row. run.
    split_request; reflexivity.
  - left. rewrite dispatch_update_list.
    destruct (update_list_run L list_id req st) as [(e & _ & ->) | H]; [reflexivity|].
    destruct H as (l & c2 & _ & _ & _ & -> & _). reflexivity.
  - left. unfold dispatch. destruct (allowed _ _); [|reflexivity].
    cbn [view_function]. unfold serve, all_lists, login_required.
    run. split_request; reflexivity.
  - left. unfold dispatch. destruct (allowed _ _); [|reflexivity].
    cbn [view_function]. unfold serve, delete_list. run. split_request; reflexivity.
Qed.

(** X11. A login session always belongs to a user of the store: if it does
    before a request, it does after it, so [load_user] finds the user of
    every session the program itself started. *)
Theorem session_stays_valid (r : Route) (req : Request) (st : State) :
  session_ok st -> session_ok (after (dispatch L r req st)).
Proof.
  unfold session_ok. intros Hok.
  destruct (dispatch_session r req st) as [Hs | [Hs | (u & Hin & Hs)]]; rewrite Hs.
  - destruct (logged_in st) as [uid|]; [|exact I].
    destruct Hok as [u Hu]. exists u.
    destruct (users_of_effect r _ _ (dispatch_effect L r req st)) as [more Hmore].
    unfold user_by_id. rewrite Hmore. apply find_app_found. exact Hu.
  - exact I.
  - unfold user_by_id.
    destruct (find (fun u0 => User.id u0 =? User.id u)
                (users (db (after (dispatch L r req st))))) as [u'|] eqn:Hf; [eauto|].
    apply (find_none _ _ Hf) in Hin. rewrite Nat.eqb_refl in Hin. discriminate.
Qed.

End Frames.

(** ** Lists: creating, viewing, deleting *)

Lemma in_lists_of_author (uid : nat) (s : Store) (l : ListTODO.t) :
  In l (lists_of_author uid s) <-> In l (lists s) /\ ListTODO.author_id l = Some uid.
Proof.
  unfold lists_of_author. rewrite filter_In.
  destruct (ListTODO.author_id l) as [a|]; cbn.
  - rewrite Nat.eqb_eq. split; intros [H1 H2]; split; congruence.
  - split; intros [H1 H2]; discriminate.
Qed.

Section Lists.

Variable L : Library.

(** X5. The overview of the lists and the home page show a logged-in user
    the lists of the store whose author is that user, all of them and no
    other, and change nothing. *)
Theorem overviews_show_the_lists_of_the_user
    (req : Request) (st : State) (uid : nat) (u : User.t) :
  method req = GET ->
  logged_in st = Some uid ->
  user_by_id uid (db st) = Some u ->
  exists ls,
    dispatch L route_all_lists req st = mkOutcome st (Render (all_lists_html ls)) [] /\
    dispatch L route_home req st = mkOutcome st (Render (index_html (Some ls))) [] /\
    forall l, In l ls <-> In l (lists (db st)) /\ ListTODO.author_id l = Some uid.
Proof.
  intros Hm Hs Hu.
  pose proof (find_id_some User.id uid _ u Hu) as [_ Hid].
  exists (lists_of_author uid (db st)).
  unfold dispatch. rewrite Hm. cbn [allowed view_function].
  unfold serve, all_lists, home, login_required. run.
  rewrite Hs. cbn. rewrite Hu. cbn. rewrite ?Hu. cbn. rewrite Hid, <- Hs, state_eta.
  split; [reflexivity|]. split; [reflexivity|].
  intros l. rewrite Hs. apply in_lists_of_author.
Qed.

(** The lists an overview renders are lists of one author. *)
Lemma all_lists_view (req : Request) (st : State) (ls : list ListTODO.t) :
  response (dispatch L route_all_lists req st) = Render (all_lists_html ls) ->
  exists uid, ls = lists_of_author uid (db st).
Proof.
  unfold dispatch. destruct (allowed _ _); [|discriminate].
  cbn [view_function]. unfold serve, all_lists, login_required.
  run. destruct (logged_in st) as [uid|]; cbn; [|discriminate].
  destruct (user_by_id uid (db st)) as [u|] eqn:Hu; cbn; rewrite ?Hu; cbn;
    [|discriminate].
  intros H. injection H as <-. eauto.
Qed.

(** X6. After the deletion of a list the list is gone: no row has its id, the
    overview of no user shows it, and its page is rendered without a list
    (for a client whose session is absent or that of a user of the store,
    the id being one SQLite can hold).  The deletion itself answers with the
    redirect to the overview. *)
Theorem deleted_list_is_gone
    (i : nat) (req req' : Request) (st : State) (l : ListTODO.t) :
  let out := dispatch L (route_delete_list i) req st in
  method req = GET ->
  list_by_id i (db st) = Some l ->
  response out = Redirect all_lists_ep /\
  list_by_id i (db (after out)) = None /\
  users (db (after out)) = users (db st) /\
  (forall ls, response (dispatch L route_all_lists req' (after out))
              = Render (all_lists_html ls) ->
     forall l', In l' ls -> ListTODO.id l' <> i) /\
  (session_ok st -> fits i = true ->
   response (serve (all_task i req') (after out))
   = Render (create_tasks_html None None)).
Proof.
  cbv zeta. intros Hm Hl.
  assert (Hr : response (dispatch L (route_delete_list i) req st) = Redirect all_lists_ep).
  { unfold dispatch. rewrite Hm. cbn [allowed view_function].
    unfold serve, delete_list. run. rewrite Hl. reflexivity. }
  assert (Hgone : list_by_id i (db (after (dispatch L (route_delete_list i) req st)))
                  = None).
  { rewrite (delete_list_run L i req st l Hm Hl). unfold list_by_id, delete_list_row.
    cbn [lists].
    destruct (find _ (filter _ (lists (db st)))) as [l'|] eqn:Hf; [|reflexivity].
    apply find_some in Hf. destruct Hf as [Hin Heq].
    apply filter_In in Hin. destruct Hin as [_ Hne].
    rewrite Heq in Hne. discriminate. }
  split; [exact Hr|]. split; [exact Hgone|]. split; [|split].
  - rewrite (delete_list_run L i req st l Hm Hl). reflexivity.
  - intros ls Hls l' Hin Hid. apply all_lists_view in Hls. destruct Hls as [uid ->].
    apply in_lists_of_author in Hin. destruct Hin as [Hin _].
    rewrite (delete_list_run L i req st l Hm Hl) in Hin. cbn in Hin.
    apply filter_In in Hin. destruct Hin as [_ Hne].
    rewrite Hid, Nat.eqb_refl in Hne. discriminate.
  - intros Hok Hfits. revert Hgone.
    unfold dispatch. rewrite Hm. cbn [allowed view_function].
    unfold serve, delete_list, all_task. run. rewrite Hl. cbn.
    intros Hgone. unfold list_by_id in Hgone. cbn in Hgone. rewrite Hgone, Hfits. cbn.
    destruct st as [s who]. with_session Hok; reflexivity.
Qed.

(** The run of [create_list] for a logged-in user who submits a description. *)
Lemma create_list_run (req : Request) (st : State) (uid : nat) (user : User.t)
    (d : string) :
  method req = POST ->
  logged_in st = Some uid ->
  user_by_id uid (db st) = Some user ->
  form_get "description" (form req) = Some d ->
  let new_list :=
    ListTODO.mk (next_id (map ListTODO.id (lists (db st))))
      (Some ("My to-do list " ++ strftime L (today req))) (Some uid) in
  let new_task :=
    Task.mk (next_id (map Task.id (tasks (db st)))) false d
      (Some (ListTODO.id new_list)) None in
  dispatch L route_new_list req st
  = mkOutcome (mkState (insert_task new_task (insert_list new_list (db st))) (Some uid))
      (Render (create_tasks_html (Some new_list) None)) [].
Proof.
  intros Hm Hs Hu Hd. cbv zeta.
  pose proof (find_id_some User.id uid _ user Hu) as [_ Hid].
  unfold dispatch. rewrite Hm. cbn [allowed view_function].
  unfold serve, create_list, login_required.
  rewrite Hm. run. rewrite Hs. cbn. rewrite Hu. cbn. rewrite Hd. cbn.
  unfold user_by_id in *. cbn. rewrite Hu. cbn.
  rewrite Hid. reflexivity.
Qed.

(** X10. Create a list, then view it: the page of the new list renders the
    new list, and its tasks are exactly the one task with the submitted
    description, not done (in a store whose tasks have a null parent or that
    of an existing list). *)
Theorem created_list_shows_its_task
    (req req' : Request) (st : State) (uid : nat) (user : User.t) (d : string) :
  let st1 := after (dispatch L route_new_list req st) in
  let i := next_id (map ListTODO.id (lists (db st))) in
  method req = POST ->
  logged_in st = Some uid ->
  user_by_id uid (db st) = Some user ->
  form_get "description" (form req) = Some d ->
  Forall (parent_ok (db st)) (tasks (db st)) ->
  exists l,
    response (serve (all_task i req') st1) = Render (create_tasks_html (Some l) None) /\
    ListTODO.id l = i /\ ListTODO.author_id l = Some uid /\
    tasks_of i (db st1)
    = [Task.mk (next_id (map Task.id (tasks (db st)))) false d (Some i) None].
Proof.
  cbv zeta. intros Hm Hs Hu Hd Hok.
  rewrite (create_list_run req st uid user d Hm Hs Hu Hd). cbn [after db].
  eexists. split; [|split; [|split]].
  - unfold serve, all_task. run. unfold list_by_id. cbn [lists insert_list insert_task].
    rewrite find_snoc.
    + cbn. rewrite Nat.eqb_refl. cbn. unfold user_by_id in *. cbn. rewrite Hu.
      reflexivity.
    + destruct (find _ (lists (db st))) as [l|] eqn:Hf; [|reflexivity].
      apply find_id_some in Hf. destruct Hf as [Hin Hid].
      exfalso. apply (next_id_fresh (map ListTODO.id (lists (db st)))).
      rewrite <- Hid. apply in_map. exact Hin.
  - reflexivity.
  - reflexivity.
  - unfold tasks_of. cbn [tasks insert_task insert_list]. rewrite filter_app.
    cbn. rewrite Nat.eqb_refl.
    replace (filter _ (tasks (db st))) with (@nil Task.t); [reflexivity|].
    symmetry.
    induction (tasks (db st)) as [|t ts IH]; [reflexivity|].
    inversion Hok as [|? ? Ht Hts]; subst. cbn.
    destruct (Task.tasks_list t) as [p|] eqn:Hp; cbn.
    + destruct (Nat.eqb_spec p (next_id (map ListTODO.id (lists (db st))))) as [-> | _];
        [|exact (IH Hts)].
      exfalso. destruct Ht as [Hn | (p' & Hp' & Hc)]; [congruence|].
      rewrite Hp in Hp'. injection Hp' as <-.
      apply (next_id_fresh (map ListTODO.id (lists (db st)))).
      apply (count_occ_In Nat.eq_dec). rewrite Hc. lia.
    + exact (IH Hts).
Qed.

(** X21. A list a user creates shows up in that user's lists and in no other
    user's: the lists of every other author are the same before and after. *)
Theorem created_list_belongs_to_its_author
    (req : Request) (st : State) (uid : nat) (user : User.t) (d : string) :
  let st1 := after (dispatch L route_new_list req st) in
  method req = POST ->
  logged_in st = Some uid ->
  user_by_id uid (db st) = Some user ->
  form_get "description" (form req) = Some d ->
  lists_of_author uid (db st1)
  = (lists_of_author uid (db st) ++
     [ListTODO.mk (next_id (map ListTODO.id (lists (db st))))
        (Some ("My to-do list " ++ strftime L (today req))%string) (Some uid)])%list /\
  forall other, other <> uid ->
    lists_of_author other (db st1) = lists_of_author other (db st).
Proof.
  cbv zeta. intros Hm Hs Hu Hd.
  rewrite (create_list_run req st uid user d Hm Hs Hu Hd). cbn [after db].
  unfold lists_of_author. cbn [lists insert_task insert_list]. split.
  - rewrite filter_app. cbn. rewrite Nat.eqb_refl. reflexivity.
  - intros other Hne. rewrite filter_app. cbn.
    destruct (Nat.eqb_spec uid other); [congruence|]. apply app_nil_r.
Qed.

(** X9. Adding a task to a list of the store appends one task row, with a
    fresh id, the submitted text, not done, without deadline, in that list,
    and renders the page of the list (for a client whose session is absent
    or that of a user of the store); every other row stays.  Without the
    field [next_task] nothing is stored and the request ends in a server
    error. *)
Theorem add_task_appends_one_task
    (i : nat) (req : Request) (st : State) (l : ListTODO.t) :
  let out := dispatch L (route_add_task i) req st in
  method req = POST ->
  list_by_id i (db st) = Some l ->
  (forall d, session_ok st -> form_get "next_task" (form req) = Some d ->
     let new_task := Task.mk (next_id (map Task.id (tasks (db st)))) false d (Some i) None in
     out = mkOutcome (mkState (insert_task new_task (db st)) (logged_in st))
             (Render (create_tasks_html (Some l) None)) [] /\
     tasks_of i (db (after out)) = (tasks_of i (db st) ++ [new_task])%list /\
     ~ In (Task.id new_task) (map Task.id (tasks (db st))))
  /\ (form_get "next_task" (form req) = None ->
      out = mkOutcome st (Failed IntegrityError) []).
Proof.
  cbv zeta. intros Hm Hl.
  pose proof (find_id_some ListTODO.id i _ l Hl) as [_ Hid].
  unfold dispatch. rewrite Hm. cbn [allowed view_function].
  unfold serve, add_task, add_task_row. split.
  - intros d Hok Hd. rewrite Hd. run. rewrite Hl. cbn. rewrite Hid.
    unfold parent_list. cbn. unfold list_by_id in *. cbn. rewrite Hl.
    destruct st as [s who]. cbn in *.
    with_session Hok;
      (split; [reflexivity|]; split; [|apply next_id_fresh];
       unfold tasks_of; cbn; rewrite filter_app; cbn; rewrite Nat.eqb_refl;
       reflexivity).
  - intros Hd. rewrite Hd. run. rewrite Hl. cbn. rewrite state_eta. reflexivity.
Qed.

End Lists.

(** ** Bulk update: errors and frame *)

Lemma index_first (x : string) (xs : list string) (i : nat) :
  NoDup xs -> nth_error xs i = Some x -> index x xs = Some i.
Proof.
  revert i. induction xs as [|y ys IH]; intros i Hnd Hi.
  - destruct i; discriminate.
  - inversion Hnd as [|? ? Hy Hys]; subst. destruct i as [|i]; cbn in *.
    + injection Hi as ->. rewrite String.eqb_refl. reflexivity.
    + destruct (String.eqb_spec y x) as [-> | _].
      * exfalso. apply Hy. exact (nth_error_In _ _ Hi).
      * rewrite (IH i Hys Hi). reflexivity.
Qed.

Section BulkUpdateErrors.

Variable L : Library.

(** The loop over [tasks_done] fails with [AttributeError] only. *)
Lemma complete_tasks_error (tasks_done : list string) (c c' : Ctx) (e : Exception) :
  for_each tasks_done (complete_task L) c = (inl e, c') -> e = AttributeError.
Proof.
  revert c. induction tasks_done as [|task rest IH]; intros c H; [discriminate|].
  cbn [for_each] in H. unfold bind in H. rewrite complete_task_run in H.
  destruct (task_by_text L task (pending c)); [exact (IH _ H)|].
  injection H as <- _. reflexivity.
Qed.

(** It ends without an exception when every text stands for a task. *)
Lemma complete_tasks_total (tasks_done : list string) (c : Ctx) :
  Forall (fun task => exists t, task_by_text L task (pending c) = Some t) tasks_done ->
  exists c', for_each tasks_done (complete_task L) c = (inr tt, c').
Proof.
  revert c. induction tasks_done as [|task rest IH]; intros c Hall.
  - exists c. reflexivity.
  - inversion Hall as [|? ? [t Ht] Hrest]; subst.
    cbn [for_each]. unfold bind. rewrite complete_task_run, Ht.
    apply IH. cbn [pending]. revert Hrest. apply Forall_impl.
    intros task' [t' Ht']. unfold task_by_text in *.
    destruct (integer_of_text L task') as [j|]; [|discriminate].
    unfold update_task_row, update_where. rewrite task_by_id_map.
    + rewrite Ht'. cbn. eauto.
    + intros x. destruct (Task.id x =? Task.id t); reflexivity.
Qed.

(** The outcome of [update_list] on a list of the store, from the runs of
    its two loops. *)
Lemma update_list_outcome (i : nat) (req : Request) (st : State) (l : ListTODO.t) :
  list_by_id i (db st) = Some l ->
  serve (update_list L i req) st =
  match for_each (form_getlist "done" (form req)) (complete_task L)
          (mkCtx (db st) (renamed i req (db st)) (logged_in st) []) with
  | (inl e, _) => mkOutcome st (Failed e) []
  | (inr _, c1) =>
      match for_each (form_getlist "deadline" (form req))
              (overwrite_task L (open_ids i (db st))
                 (form_getlist "deadline" (form req))
                 (form_getlist "description" (form req))) c1 with
      | (inl e, _) => mkOutcome st (Failed e) []
      | (inr _, c2) =>
          mkOutcome (mkState (pending c2) (logged_in st))
            (rendered (logged_in st) (pending c2)
               (create_tasks_html (list_by_id i (pending c2))
                  (Some (progress_of (tasks_of i (pending c2)))))) []
      end
  end.
Proof.
  intros Hl. unfold serve, update_list, rendered.
  replace (match form_getlist "done" (form req) with
           | [] => ret tt
           | _ :: _ => for_each (form_getlist "done" (form req)) (complete_task L)
           end)
    with (for_each (form_getlist "done" (form req)) (complete_task L))
    by (destruct (form_getlist "done" (form req)); reflexivity).
  run. rewrite Hl.
  pose proof (find_id_some ListTODO.id i _ l Hl) as [_ Hid].
  rewrite Hid. unfold renamed, open_ids.
  destruct (form_get "name" (form req)) as [n|]; cbn.
  all: match goal with
       | |- context [for_each ?xs (complete_task L) ?c0] =>
           destruct (for_each xs (complete_task L) c0) as [[e|[]] c1] eqn:H1
       end.
  all: try (destruct (quiet_for_each _ _ (quiet_complete_task L) _ _ _ H1)
              as (Hd & Hs & Hf);
            cbn in *; rewrite Hd, Hs, Hf, state_eta; reflexivity).
  all: destruct (quiet_for_each _ _ (quiet_complete_task L) _ _ _ H1)
         as (Hd1 & Hs1 & Hf1); cbn in Hd1, Hs1, Hf1.
  all: match goal with
       | |- context [for_each ?xs (overwrite_task L ?a ?b ?d) ?c1] =>
           destruct (for_each xs (overwrite_task L a b d) c1) as [[e|[]] c2] eqn:H2
       end.
  all: destruct (quiet_for_each _ _ (quiet_overwrite_task L _ _ _) _ _ _ H2)
         as (Hd2 & Hs2 & Hf2).
  all: unfold tasks_of in *; cbn in *; rewrite ?H2; cbn.
  all: rewrite ?Hd2, ?Hs2, ?Hf2, ?Hd1, ?Hs1, ?Hf1, ?state_eta; try reflexivity.
  all: destruct (logged_in st) as [uid|]; cbn;
       [destruct (user_by_id uid (pending c2)); cbn|];
       rewrite ?Hf2, ?Hf1; reflexivity.
Qed.

(** X14. A bulk update of a list of the store in which a submitted "done"
    value is not the id of a task ends in a server error ([AttributeError])
    and changes nothing: not the name, not the done flag of the tasks
    submitted before it. *)
Theorem bulk_update_with_unknown_done_id
    (i : nat) (req : Request) (st : State) (l : ListTODO.t) (task : string) :
  let out := dispatch L (route_update_list i) req st in
  list_by_id i (db st) = Some l ->
  In task (form_getlist "done" (form req)) ->
  task_by_text L task (db st) = None ->
  out = mkOutcome st (Failed AttributeError) [] /\ status_code (response out) = 500.
Proof.
  cbv zeta. intros Hl Hin Hnone. rewrite dispatch_update_list.
  rewrite (update_list_outcome i req st l Hl).
  destruct (for_each (form_getlist "done" (form req)) (complete_task L) _)
    as [[e|[]] c1] eqn:H1.
  - apply complete_tasks_error in H1. subst e. split; reflexivity.
  - exfalso. apply complete_tasks_run in H1. destruct H1 as [_ Hall].
    rewrite Forall_forall in Hall. destruct (Hall task Hin) as [t Ht].
    unfold task_by_text in *. cbn [pending] in Ht.
    destruct (integer_of_text L task) as [j|]; [|discriminate].
    unfold renamed in Ht. unfold task_by_id in *.
    destruct (form_get "name" (form req)); cbn in Ht; congruence.
Qed.

(** X15. A bulk update that submits a deadline for a list of the store
    without a task that is not done ends in a server error ([IndexError])
    and changes nothing. *)
Theorem bulk_update_without_open_tasks
    (i : nat) (req : Request) (st : State) (l : ListTODO.t) (date : string)
    (rest : list string) :
  let out := dispatch L (route_update_list i) req st in
  list_by_id i (db st) = Some l ->
  Forall (fun task => exists t, task_by_text L task (db st) = Some t)
    (form_getlist "done" (form req)) ->
  form_getlist "deadline" (form req) = date :: rest ->
  open_ids i (db st) = [] ->
  out = mkOutcome st (Failed IndexError) [] /\ status_code (response out) = 500.
Proof.
  cbv zeta. intros Hl Hall Hdl Hopen. rewrite dispatch_update_list.
  rewrite (update_list_outcome i req st l Hl).
  destruct (complete_tasks_total (form_getlist "done" (form req))
              (mkCtx (db st) (renamed i req (db st)) (logged_in st) [])) as [c1 H1].
  { revert Hall. apply Forall_impl. intros task [t Ht]. exists t.
    unfold task_by_text, task_by_id, renamed in *. cbn [pending].
    destruct (form_get "name" (form req)); exact Ht. }
  rewrite H1, Hdl, Hopen. cbn [for_each]. unfold bind, overwrite_task. run.
  rewrite String.eqb_refl. cbn. split; reflexivity.
Qed.

(** A bulk update that ends in an error has changed nothing: neither the
    name nor a task written before the failing step is committed (the
    session being absent or that of a user of the store, so that the view
    renders once the changes are committed). *)
Lemma failed_bulk_update_changes_nothing
    (i : nat) (req : Request) (st : State) (e : Exception) :
  let out := dispatch L (route_update_list i) req st in
  session_ok st -> response out = Failed e -> after out = st.
Proof.
  cbv zeta. rewrite dispatch_update_list. intros Hok Hr.
  destruct (update_list_run L i req st) as [(e' & _ & Hafter) | H]; [exact Hafter|].
  destruct H as (l & c2 & _ & _ & H2 & _ & Hresp & _).
  apply overwrite_tasks_run in H2. destruct H2 as (g & _ & Hc2).
  rewrite Hresp, rendered_ok in Hr;
    [discriminate | exact Hok | rewrite Hc2; reflexivity].
Qed.

(** X20. A bulk update that submits nothing (as a GET of the route does),
    from a client whose session is absent or that of a user of the store,
    leaves the store as it is and renders the list with the completion flag
    of its tasks. *)
Theorem empty_bulk_update_changes_nothing
    (i : nat) (req : Request) (st : State) (l : ListTODO.t) :
  session_ok st ->
  form req = [] ->
  list_by_id i (db st) = Some l ->
  dispatch L (route_update_list i) req st
  = mkOutcome st
      (Render (create_tasks_html (Some l)
                 (Some (forallb Task.done (tasks_of i (db st)))))) [].
Proof.
  intros Hok Hf Hl. rewrite dispatch_update_list.
  rewrite (update_list_outcome i req st l Hl). unfold renamed. rewrite Hf.
  cbn. rewrite Hl, progress_of_forallb, state_eta.
  rewrite (rendered_ok st (db st) _ Hok eq_refl). reflexivity.
Qed.

End BulkUpdateErrors.

(** ** Bulk update: what is written and what is not *)

Lemma row_of_id (rows : list Task.t) (a b : Task.t) :
  NoDup (map Task.id rows) -> In a rows -> In b rows -> Task.id a = Task.id b -> a = b.
Proof.
  induction rows as [|r rows IH]; intros Hnd Ha Hb Hid; [contradiction|].
  cbn in Hnd. inversion Hnd as [|? ? Hnotin Hnd']; subst.
  destruct Ha as [-> | Ha], Hb as [-> | Hb]; auto.
  - exfalso. apply Hnotin. rewrite Hid. apply in_map. exact Hb.
  - exfalso. apply Hnotin. rewrite <- Hid. apply in_map. exact Ha.
Qed.

Lemma in_open_ids (i : nat) (s : Store) (t : Task.t) :
  NoDup (map Task.id (tasks s)) -> In t (tasks s) ->
  In (Task.id t) (open_ids i s) ->
  Task.done t = false /\ Task.tasks_list t = Some i.
Proof.
  intros Hnd Hin Hopen. unfold open_ids in Hopen.
  apply in_map_iff in Hopen. destruct Hopen as (t0 & Hid & Hin0).
  apply filter_In in Hin0. destruct Hin0 as [Hin0 Hd].
  apply in_tasks_of in Hin0. destruct Hin0 as [Hin0 Hp].
  rewrite (row_of_id _ t0 t Hnd Hin0 Hin Hid) in *.
  split; [|exact Hp]. destruct (Task.done t); [discriminate | reflexivity].
Qed.

Lemma mark_done_keeps (ids : list nat) (t : Task.t) :
  Task.description (mark_done ids t) = Task.description t /\
  Task.deadline (mark_done ids t) = Task.deadline t.
Proof. unfold mark_done. destruct (existsb _ ids); split; reflexivity. Qed.

Section BulkUpdateWrites.

Variable L : Library.

(** The loop over the deadlines writes to tasks of [ids] only. *)
Lemma overwrite_tasks_frame (ids : list nat) (dates descriptions : list string)
    (ds : list string) (c c' : Ctx) :
  for_each ds (overwrite_task L ids dates descriptions) c = (inr tt, c') ->
  exists g, (forall t, Task.id (g t) = Task.id t) /\
    (forall t, ~ In (Task.id t) ids -> g t = t) /\
    c' = mkCtx (disk c)
           (mkStore (users (pending c)) (lists (pending c)) (map g (tasks (pending c))))
           (session c) (flashes c).
Proof.
  revert c. induction ds as [|date ds IH]; intros c H.
  - cbn in H. injection H as <-. exists (fun t => t). repeat split.
    rewrite map_id, store_eta. destruct c; reflexivity.
  - cbn [for_each] in H. unfold bind in H.
    destruct (overwrite_task L ids dates descriptions date c) as [[e|[]] c1] eqn:H1;
      [discriminate|].
    apply overwrite_task_run in H1.
    destruct H1 as (k & tid & x & _ & Htid & _ & _ & _ & ->).
    apply IH in H. destruct H as (g & Hgid & Hg & ->). cbn.
    exists (fun t => g (write tid x (due_of L date) t)). split; [|split].
    + intros t. rewrite Hgid. apply edits_write.
    + intros t Ht.
      assert (Hw : write tid x (due_of L date) t = t).
      { unfold write. destruct (Nat.eqb_spec (Task.id t) tid) as [Heq | _]; [|reflexivity].
        exfalso. apply Ht. rewrite Heq. exact (nth_error_In _ _ Htid). }
      rewrite Hw. apply Hg. exact Ht.
    + rewrite map_map. reflexivity.
Qed.

(** X17. A bulk update writes description and deadline of tasks of the list
    that were not done only: a task that was done already, or that belongs
    to another list or to none, has the same description, deadline and list
    afterwards (task ids being primary keys). *)
Theorem bulk_update_leaves_other_tasks
    (i : nat) (req : Request) (st : State) (v : View) (t : Task.t) :
  let out := dispatch L (route_update_list i) req st in
  NoDup (map Task.id (tasks (db st))) ->
  response out = Render v ->
  In t (tasks (db st)) ->
  Task.done t = true \/ Task.tasks_list t <> Some i ->
  exists t', In t' (tasks (db (after out))) /\
    Task.id t' = Task.id t /\
    Task.description t' = Task.description t /\
    Task.deadline t' = Task.deadline t /\
    Task.tasks_list t' = Task.tasks_list t.
Proof.
  cbv zeta. rewrite dispatch_update_list. intros Hnd Hr Hin Hother.
  destruct (update_list_run L i req st) as [(e & He & _) | H];
    [rewrite He in Hr; discriminate|].
  destruct H as (l & c2 & _ & _ & H2 & -> & _).
  apply overwrite_tasks_frame in H2. destruct H2 as (g & Hgid & Hg & ->).
  cbn [after db pending tasks]. rewrite map_map.
  set (submitted := done_ids L (form_getlist "done" (form req))).
  exists (g (mark_done submitted t)). split.
  - apply (in_map (fun x => g (mark_done submitted x))). exact Hin.
  - assert (Hout : ~ In (Task.id (mark_done submitted t)) (open_ids i (db st))).
    { rewrite mark_done_id. intros Hopen.
      destruct (in_open_ids i (db st) t Hnd Hin Hopen) as [Hd Hp].
      destruct Hother as [Hdone | Hlist]; congruence. }
    rewrite (Hg _ Hout), mark_done_id, mark_done_tasks_list.
    destruct (mark_done_keeps submitted t) as [-> ->]. auto.
Qed.

(** X16. With deadline values that are pairwise different the pairing is by
    position: a bulk update that is served to the end writes, for every
    position [k], the [k]-th submitted description to the [k]-th task of the
    list that was not done, and the [k]-th deadline when it is not empty. *)
Theorem distinct_deadlines_pair_by_position
    (i : nat) (req : Request) (st : State) (v : View)
    (k : nat) (date : string) (tid : nat) :
  let out := dispatch L (route_update_list i) req st in
  NoDup (map Task.id (tasks (db st))) ->
  NoDup (form_getlist "deadline" (form req)) ->
  response out = Render v ->
  nth_error (form_getlist "deadline" (form req)) k = Some date ->
  nth_error (open_ids i (db st)) k = Some tid ->
  exists t',
    task_by_id tid (db (after out)) = Some t' /\
    nth_error (form_getlist "description" (form req)) k = Some (Task.description t') /\
    (date <> "" -> exists d, strptime L date = Some d /\ Task.deadline t' = Some d).
Proof.
  cbv zeta. rewrite dispatch_update_list. intros Hkeys Hnd Hr Hdate Htid.
  destruct (update_list_run L i req st) as [(e & He & _) | H];
    [rewrite He in Hr; discriminate|].
  destruct H as (l & c2 & _ & _ & H2 & -> & _).
  pose proof (overwrite_tasks_position L _ _ _ (open_ids_distinct i _ Hkeys)
                k date tid (index_first _ _ _ Hnd Hdate) Htid _ _ _ H2) as Hw.
  destruct Hw as (t' & Ht' & Hdesc & Hdl).
  { left. exact (nth_error_In _ _ Hdate). }
  exists t'. cbn [after db]. split; [exact Ht'|]. split; [exact Hdesc|].
  intros Hne. apply Hdl. apply String.eqb_neq. exact Hne.
Qed.

(** X12. A bulk update that is served to the end and submits a name gives
    that name to the list with the id of the route and to no other list; it
    never changes the author of a list, adds or removes a list, or touches
    the users.  Without a submitted name the lists stay as they are. *)
Theorem bulk_update_renames_the_list
    (i : nat) (req : Request) (st : State) (v : View) :
  let out := dispatch L (route_update_list i) req st in
  response out = Render v ->
  users (db (after out)) = users (db st) /\
  lists (db (after out)) =
    match form_get "name" (form req) with
    | Some n => map (fun l => if ListTODO.id l =? i
                              then ListTODO.mk (ListTODO.id l) (Some n) (ListTODO.author_id l)
                              else l) (lists (db st))
    | None => lists (db st)
    end.
Proof.
  cbv zeta. rewrite dispatch_update_list. intros Hr.
  destruct (update_list_run L i req st) as [(e & He & _) | H];
    [rewrite He in Hr; discriminate|].
  destruct H as (l & c2 & _ & _ & H2 & -> & _).
  apply overwrite_tasks_run in H2. destruct H2 as (g & _ & ->).
  cbn [after db pending users lists]. split; [reflexivity|].
  unfold renamed. destruct (form_get "name" (form req)); reflexivity.
Qed.

End BulkUpdateWrites.

(** ** The further properties on the sample store *)


Lemma register_rejects_a_short_password_witness :
  after (dispatch Sample.library route_register
           (Sample.post [("name", "Bob"); ("email", "bob@example.org");
                         ("password", "1234567")])
           (mkState Sample.two_tasks None))
  = mkState Sample.two_tasks None.
Proof.
  exact (proj1 (register_rejects_a_short_password Sample.library
                  (Sample.post [("name", "Bob"); ("email", "bob@example.org");
                                ("password", "1234567")])
                  (mkState Sample.two_tasks None) "1234567" I eq_refl eq_refl
                  (le_n 8))).
Defined.

Lemma register_then_login_witness :
  let req := Sample.post [("name", "Bob"); ("email", "bob@example.org");
                          ("password", "12345678")] in
  let req' := Sample.post [("email", "bob@example.org"); ("password", "12345678")] in
  let st1 := after (dispatch Sample.library route_register req
                      (mkState Sample.two_tasks None)) in
  logged_in (after (dispatch Sample.library route_login req' (mkState (db st1) None)))
  = Some 2.
Proof.
  refine (proj1 (proj2 (register_then_login Sample.library
            (Sample.post [("name", "Bob"); ("email", "bob@example.org");
                          ("password", "12345678")])
            (Sample.post [("email", "bob@example.org"); ("password", "12345678")])
            (mkState Sample.two_tasks None) None
            eq_refl eq_refl eq_refl eq_refl eq_refl eq_refl _))).
  intros pw Hpw. injection Hpw as <-. reflexivity.
Defined.

Lemma login_required_refuses_witness :
  response (dispatch Sample.library route_new_list
              (Sample.post [("description", "Buy milk")])
              (mkState Sample.two_tasks None))
  = Failed Unauthorized.
Proof.
  exact (proj1 (proj1 (login_required_refuses Sample.library route_new_list
                         (Sample.post [("description", "Buy milk")])
                         (mkState Sample.two_tasks None)
                         (or_introl eq_refl) eq_refl) eq_refl)).
Defined.

Lemma logout_ends_the_session_witness :
  after (dispatch Sample.library route_logout Sample.get
           (mkState Sample.two_tasks (Some 1)))
  = mkState Sample.two_tasks None.
Proof.
  exact (proj1 (logout_ends_the_session Sample.library Sample.get Sample.get
                  (mkState Sample.two_tasks (Some 1))
                  (ex_intro _ Sample.ann eq_refl) eq_refl eq_refl)).
Defined.

Lemma sample_emails_unique : emails_unique Sample.two_tasks.
Proof.
  unfold emails_unique. cbn. constructor; [intros [] | constructor].
Defined.

Lemma emails_stay_unique_witness :
  emails_unique
    (db (after (dispatch Sample.library route_register
                  (Sample.post [("name", "Bob"); ("email", "bob@example.org");
                                ("password", "12345678")])
                  (mkState Sample.two_tasks None)))).
Proof.
  exact (emails_stay_unique Sample.library route_register _
           (mkState Sample.two_tasks None) sample_emails_unique).
Defined.

Lemma session_stays_valid_witness :
  session_ok
    (after (dispatch Sample.library route_login
              (Sample.post [("email", "ann@example.org"); ("password", "correct horse")])
              (mkState Sample.two_tasks None))).
Proof.
  exact (session_stays_valid Sample.library route_login _
           (mkState Sample.two_tasks None) I).
Defined.

Lemma overviews_show_the_lists_of_the_user_witness :
  exists ls,
    dispatch Sample.library route_all_lists Sample.get (mkState Sample.two_tasks (Some 1))
    = mkOutcome (mkState Sample.two_tasks (Some 1)) (Render (all_lists_html ls)) [] /\
    dispatch Sample.library route_home Sample.get (mkState Sample.two_tasks (Some 1))
    = mkOutcome (mkState Sample.two_tasks (Some 1)) (Render (index_html (Some ls))) [] /\
    forall l, In l ls <-> In l (lists Sample.two_tasks) /\ ListTODO.author_id l = Some 1.
Proof.
  exact (overviews_show_the_lists_of_the_user Sample.library Sample.get
           (mkState Sample.two_tasks (Some 1)) 1 Sample.ann eq_refl eq_refl eq_refl).
Defined.

Lemma deleted_list_is_gone_witness :
  list_by_id 1
    (db (after (dispatch Sample.library (route_delete_list 1) Sample.get
                  (mkState Sample.two_tasks (Some 1))))) = None.
Proof.
  exact (proj1 (proj2 (deleted_list_is_gone Sample.library 1 Sample.get Sample.get
                         (mkState Sample.two_tasks (Some 1))
                         (ListTODO.mk 1 (Some "My to-do list 2026/11/03") (Some 1))
                         eq_refl eq_refl))).
Defined.

Lemma sample_parents_ok :
  Forall (parent_ok Sample.two_tasks) (tasks Sample.two_tasks).
Proof.
  constructor; [right; exists 1; split; reflexivity|].
  constructor; [right; exists 1; split; reflexivity|]. constructor.
Defined.

Lemma created_list_shows_its_task_witness :
  tasks_of 2
    (db (after (dispatch Sample.library route_new_list
                  (Sample.post [("description", "Water plants")])
                  (mkState Sample.two_tasks (Some 1)))))
  = [Task.mk 3 false "Water plants" (Some 2) None].
Proof.
  destruct (created_list_shows_its_task Sample.library
              (Sample.post [("description", "Water plants")]) Sample.get
              (mkState Sample.two_tasks (Some 1)) 1 Sample.ann "Water plants"
              eq_refl eq_refl eq_refl eq_refl sample_parents_ok)
    as (l & _ & _ & _ & H).
  exact H.
Defined.

Lemma created_list_belongs_to_its_author_witness :
  lists_of_author 2
    (db (after (dispatch Sample.library route_new_list
                  (Sample.post [("description", "Water plants")])
                  (mkState Sample.two_tasks (Some 1)))))
  = lists_of_author 2 Sample.two_tasks.
Proof.
  refine (proj2 (created_list_belongs_to_its_author Sample.library
                   (Sample.post [("description", "Water plants")])
                   (mkState Sample.two_tasks (Some 1)) 1 Sample.ann "Water plants"
                   eq_refl eq_refl eq_refl eq_refl) 2 _).
  discriminate.
Defined.

Lemma add_task_appends_one_task_witness :
  tasks_of 1
    (db (after (dispatch Sample.library (route_add_task 1)
                  (Sample.post [("next_task", "Water plants")])
                  (mkState Sample.two_tasks None))))
  = (tasks_of 1 Sample.two_tasks ++ [Task.mk 3 false "Water plants" (Some 1) None])%list.
Proof.
  exact (proj1 (proj2 (proj1 (add_task_appends_one_task Sample.library 1
                                (Sample.post [("next_task", "Water plants")])
                                (mkState Sample.two_tasks None)
                                (ListTODO.mk 1 (Some "My to-do list 2026/11/03") (Some 1))
                                eq_refl eq_refl)
                               "Water plants" I eq_refl))).
Defined.

Lemma create_list_without_description_witness :
  let out := dispatch Sample.library route_new_list (Sample.post [])
               (mkState Sample.two_tasks (Some 1)) in
  response out = Failed IntegrityError /\
  tasks (db (after out)) = tasks Sample.two_tasks /\
  List.length (lists (db (after out))) = 2.
Proof.
  exact (create_list_without_description Sample.library
           (mkState Sample.two_tasks (Some 1)) 1 Sample.ann (Sample.post [])
           eq_refl eq_refl eq_refl eq_refl).
Defined.

Lemma bulk_update_with_unknown_done_id_witness :
  dispatch Sample.library (route_update_list 1)
    (Sample.post [("name", "Errands"); ("done", "1"); ("done", "9")])
    (mkState Sample.two_tasks None)
  = mkOutcome (mkState Sample.two_tasks None) (Failed AttributeError) [].
Proof.
  exact (proj1 (bulk_update_with_unknown_done_id Sample.library 1
                  (Sample.post [("name", "Errands"); ("done", "1"); ("done", "9")])
                  (mkState Sample.two_tasks None)
                  (ListTODO.mk 1 (Some "My to-do list 2026/11/03") (Some 1)) "9"
                  eq_refl (or_intror (or_introl eq_refl)) eq_refl)).
Defined.

Lemma bulk_update_without_open_tasks_witness :
  dispatch Sample.library (route_update_list 1)
    (Sample.post [("deadline", "2026-12-01"); ("description", "Buy oat milk")])
    (mkState Sample.no_tasks None)
  = mkOutcome (mkState Sample.no_tasks None) (Failed IndexError) [].
Proof.
  exact (proj1 (bulk_update_without_open_tasks Sample.library 1
                  (Sample.post [("deadline", "2026-12-01"); ("description", "Buy oat milk")])
                  (mkState Sample.no_tasks None)
                  (ListTODO.mk 1 (Some "My to-do list 2026/11/03") (Some 1))
                  "2026-12-01" [] eq_refl (Forall_nil _) eq_refl eq_refl)).
Defined.

Lemma empty_bulk_update_changes_nothing_witness :
  dispatch Sample.library (route_update_list 1) Sample.get (mkState Sample.two_tasks None)
  = mkOutcome (mkState Sample.two_tasks None)
      (Render (create_tasks_html
                 (Some (ListTODO.mk 1 (Some "My to-do list 2026/11/03") (Some 1)))
                 (Some false))) [].
Proof.
  exact (empty_bulk_update_changes_nothing Sample.library 1 Sample.get
           (mkState Sample.two_tasks None)
           (ListTODO.mk 1 (Some "My to-do list 2026/11/03") (Some 1))
           I eq_refl eq_refl).
Defined.

Lemma bulk_update_leaves_other_tasks_witness :
  let st := mkState (mkStore [Sample.ann]
                       [ListTODO.mk 1 (Some "Home") (Some 1);
                        ListTODO.mk 2 (Some "Work") (Some 1)]
                       [Task.mk 1 false "Buy milk" (Some 1) None;
                        Task.mk 2 false "File report" (Some 2) None]) None in
  let req := Sample.post [("deadline", "2026-12-01"); ("description", "Buy oat milk")] in
  exists t',
    In t' (tasks (db (after (dispatch Sample.library (route_update_list 1) req st)))) /\
    Task.id t' = 2 /\ Task.description t' = "File report" /\
    Task.deadline t' = None /\ Task.tasks_list t' = Some 2.
Proof.
  refine (bulk_update_leaves_other_tasks Sample.library 1
            (Sample.post [("deadline", "2026-12-01"); ("description", "Buy oat milk")])
            (mkState (mkStore [Sample.ann]
                        [ListTODO.mk 1 (Some "Home") (Some 1);
                         ListTODO.mk 2 (Some "Work") (Some 1)]
                        [Task.mk 1 false "Buy milk" (Some 1) None;
                         Task.mk 2 false "File report" (Some 2) None]) None)
            (create_tasks_html (Some (ListTODO.mk 1 (Some "Home") (Some 1))) (Some false))
            (Task.mk 2 false "File report" (Some 2) None) _ eq_refl _ _).
  - cbn. repeat constructor; cbn; intuition discriminate.
  - right. left. reflexivity.
  - right. discriminate.
Defined.

Lemma distinct_deadlines_pair_by_position_witness :
  exists t',
    task_by_id 2
      (db (after (dispatch Sample.library (route_update_list 1) Sample.bulk_update
                    (mkState Sample.two_tasks None)))) = Some t' /\
    nth_error ["Buy oat milk"; "Call Bob back"] 1 = Some (Task.description t') /\
    ("" <> "" -> exists d, Sample.parse_date "" = Some d /\ Task.deadline t' = Some d).
Proof.
  refine (distinct_deadlines_pair_by_position Sample.library 1 Sample.bulk_update
            (mkState Sample.two_tasks None) _ 1 "" 2 _ _ eq_refl eq_refl eq_refl).
  - exact (proj2 (proj2 sample_keys_ok)).
  - cbn. repeat constructor; cbn; intuition discriminate.
Defined.

Lemma bulk_update_renames_the_list_witness :
  lists (db (after (dispatch Sample.library (route_update_list 1)
                      (Sample.post [("name", "Errands")])
                      (mkState Sample.two_tasks None))))
  = [ListTODO.mk 1 (Some "Errands") (Some 1)].
Proof.
  exact (proj2 (bulk_update_renames_the_list Sample.library 1
                  (Sample.post [("name", "Errands")])
                  (mkState Sample.two_tasks None) _ eq_refl)).
Defined.

(** ** Errors and completion *)

Lemma forallb_done_after (ids : list nat) (g : Task.t -> Task.t) (ts : list Task.t) :
  (forall t, Task.done (g t) = Task.done t || existsb (Nat.eqb (Task.id t)) ids) ->
  forallb Task.done (map g ts)
  = forallb (fun tid => existsb (Nat.eqb tid) ids)
      (map Task.id (filter (fun task => negb (Task.done task)) ts)).
Proof.
  intros Hg. induction ts as [|t ts IH]; [reflexivity|].
  cbn. rewrite Hg, IH. destruct (Task.done t); reflexivity.
Qed.

Section ErrorsAndCompletion.

Variable L : Library.

(** X23. The completion flag of a bulk update, read off the request: it is
    true exactly when every task of the list that was not done is among the
    submitted "done" ids. *)
Theorem completion_flag_of_the_request
    (i : nat) (req : Request) (st : State)
    (data : option ListTODO.t) (completed : option bool) :
  let out := dispatch L (route_update_list i) req st in
  response out = Render (create_tasks_html data completed) ->
  completed =
    Some (forallb (fun tid => existsb (Nat.eqb tid)
                                (done_ids L (form_getlist "done" (form req))))
            (open_ids i (db st))).
Proof.
  cbv zeta. rewrite dispatch_update_list. intros Hr.
  destruct (update_list_run L i req st) as [(e & He & _) | H];
    [rewrite He in Hr; discriminate|].
  destruct H as (l & c2 & _ & _ & H2 & _ & Hresp & _).
  rewrite Hresp in Hr. apply rendered_inv in Hr. injection Hr as _ <-. f_equal.
  apply overwrite_tasks_run in H2. destruct H2 as (g & Hg & ->).
  cbn [pending users lists tasks]. rewrite map_map, progress_of_forallb.
  set (submitted := done_ids L (form_getlist "done" (form req))).
  rewrite (tasks_of_map (fun x => g (mark_done submitted x))).
  - unfold open_ids.
    replace (tasks_of i (mkStore (users (db st)) (lists (renamed i req (db st)))
                           (tasks (db st))))
      with (tasks_of i (db st)) by reflexivity.
    apply forallb_done_after. intros t.
    destruct (Hg (mark_done submitted t)) as (_ & -> & _). apply mark_done_done.
  - intros t. destruct (Hg (mark_done submitted t)) as (_ & _ & ->).
    apply mark_done_tasks_list.
Qed.

(** X13. A request that ends in an error has changed nothing, whatever the
    route, with one exception: "new list", which commits the list before it
    stores the task.  So a bulk update that fails has committed neither the
    name nor the tasks it wrote before the failing step.  This is for a
    client whose session is absent or that of a user of the store: rendering
    a view loads the user of the session, after the commit. *)
Theorem failed_request_changes_nothing
    (r : Route) (req : Request) (st : State) (e : Exception) :
  let out := dispatch L r req st in
  session_ok st ->
  r <> route_new_list ->
  response out = Failed e ->
  after out = st.
Proof.
  cbv zeta. intros Hok Hr.
  destruct r; try contradiction;
    try (intros H; exact (failed_bulk_update_changes_nothing L _ _ _ _ Hok H));
    unfold dispatch; (destruct (allowed _ (method req)); [|reflexivity]);
    cbn [view_function]; unfold serve; destruct st as [s who].
  - unfold home. run. with_session Hok; discriminate.
  - unfold register, validate_on_submit.
    destruct (is_submitted req); [|run; with_session Hok; discriminate].
    destruct (failed_fields (RegisterForm L req));
      [|run; with_session Hok; discriminate].
    destruct (form_get "password" (form req)) as [pw|];
      [|cbn; intros _; reflexivity].
    unfold add_user. run.
    destruct (user_by_email (form_get "email" (form req)) s) eqn:Hue; cbn;
      [with_session Hok; discriminate|].
    destruct (form_get "email" (form req)); cbn; [rewrite Hue; cbn|]; discriminate.
  - unfold login, validate_on_submit.
    destruct (is_submitted req); [|run; with_session Hok; discriminate].
    destruct (failed_fields (LoginForm req)); [|run; with_session Hok; discriminate].
    run. destruct (user_by_email (form_get "email" (form req)) s) as [u|];
      cbn; [|with_session Hok; discriminate].
    destruct (User.password u) as [pwhash|]; [|cbn; intros _; reflexivity].
    destruct (form_get "password" (form req)) as [pw|]; [|cbn; intros _; reflexivity].
    destruct (check_password_hash L pwhash pw); cbn;
      [discriminate | with_session Hok; discriminate].
  - unfold logout. run. with_session Hok; discriminate.
  - unfold all_task. run.
    destruct (list_by_id list_id s); cbn;
      [|destruct (fits list_id); cbn; [|intros _; reflexivity]];
      with_session Hok; discriminate.
  - unfold add_task, add_task_row. run.
    destruct (list_by_id list_id s); cbn;
      [|destruct (fits list_id); cbn; [|intros _; reflexivity]];
      (destruct (form_get "next_task" (form req)); cbn; [|intros _; reflexivity]);
      with_session Hok; discriminate.
  - unfold all_lists, login_required. run.
    with_session Hok; first [discriminate | intros _; reflexivity].
  - unfold delete_list. run.
    destruct (list_by_id list_id s); cbn; [discriminate|].
    destruct (fits list_id); cbn; intros _; reflexivity.
Qed.

End ErrorsAndCompletion.

Lemma completion_flag_of_the_request_witness :
  Some false
  = Some (forallb (fun tid => existsb (Nat.eqb tid)
                     (done_ids Sample.library
                        (form_getlist "done" (form Sample.bulk_update))))
            (open_ids 1 Sample.two_tasks)).
Proof.
  exact (completion_flag_of_the_request Sample.library 1 Sample.bulk_update
           (mkState Sample.two_tasks None) _ (Some false) eq_refl).
Defined.

Lemma failed_request_changes_nothing_witness :
  after (dispatch Sample.library (route_update_list 1)
           (Sample.post [("name", "Errands"); ("done", "1");
                         ("deadline", "tomorrow"); ("description", "Buy oat milk")])
           (mkState Sample.two_tasks None))
  = mkState Sample.two_tasks None.
Proof.
  refine (failed_request_changes_nothing Sample.library (route_update_list 1)
            (Sample.post [("name", "Errands"); ("done", "1");
                          ("deadline", "tomorrow"); ("description", "Buy oat milk")])
            (mkState Sample.two_tasks None) ValueError I _ eq_refl).
  discriminate.
Defined.
